(** * pyuv [Timer] (src/timer.c)

    A shallow embedding of the Timer handle wrapper: the fields of the
    [Timer] object, the C heap of native [uv_timer_t] blocks, CPython
    reference counts and the calls made into libuv, followed by the
    properties of the lifecycle, the ownership contract and the [repeat]
    accessor. *)

From Stdlib Require Import ZArith Lia String Bool List.
From Stdlib Require Import SpecFloat.
From stdpp Require Import base option list gmap.
Import ListNotations.
Local Open Scope string_scope.
Local Open Scope Z_scope.

(** ** C [double] and [int64_t] *)

(** A C [double] is an IEEE-754 binary64 number: 53 bits of precision,
    exponent of the infinities 1024. *)
Definition double := spec_float.
Definition dprec : Z := 53.
Definition demax : Z := 1024.

Definition double_mul : double -> double -> double := SFmul dprec demax.
Definition double_div : double -> double -> double := SFdiv dprec demax.
Definition double_lt : double -> double -> bool := SFltb.
Definition double_eq : double -> double -> bool := SFeqb.

(** The literals [0.0], [1000] (promoted to double, also [1000.0]) and [-1]. *)
Definition d_zero : double := S754_zero false.
Definition d_1000 : double := S754_finite false 8796093022208000 (-43).
Definition d_minus_1 : double := S754_finite true 4503599627370496 (-52).

Definition INT64_MIN : Z := - 2 ^ 63.
Definition INT64_MAX : Z := 2 ^ 63 - 1.

(** The integral part of a double, fractional part discarded (truncation
    toward zero); undefined for NaN and the infinities. *)
Definition double_trunc (d : double) : option Z :=
  match d with
  | S754_zero _ => Some 0
  | S754_finite s m e =>
      let a := Z.shiftl (Zpos m) e in
      Some (if s then - a else a)
  | S754_infinity _ | S754_nan => None
  end.

(** The cast [(int64_t)d]: the truncated value when it fits in 64 bits;
    [None] is C's undefined behaviour (value out of range, NaN, infinity). *)
Definition int64_of_double (d : double) : option Z :=
  match double_trunc d with
  | Some z => if (INT64_MIN <=? z) && (z <=? INT64_MAX) then Some z else None
  | None => None
  end.

(** The implicit conversion of an [int64_t] operand to double (round to
    nearest, ties to even). *)
Definition double_of_int64 (z : Z) : double := binary_normalize dprec demax z 0 false.

(** ** Python objects *)

(** An object is known by its address; [ob_callable] is what
    [PyCallable_Check] answers for its type. *)
Record PyObject := mkPyObject { ob_addr : nat; ob_callable : bool }.

Definition Py_None : PyObject := mkPyObject 0 false.

(** The Timer object the operations are called on ([self]). *)
Definition Timer_self : PyObject := mkPyObject 1 false.

Definition PyCallable_Check (o : PyObject) : bool := ob_callable o.

(** Pointer comparison. *)
Definition ptr_eqb (a b : PyObject) : bool := Nat.eqb (ob_addr a) (ob_addr b).

(** The value handed to the [repeat] setter. *)
Inductive PyValue :=
| PyFloat (d : double)
| PyNotNumber (o : PyObject).

(** [TimerError_uv l] is the TimerError that [raise_uv_exception] builds
    from the last error of the loop [l]. *)
Inductive exn :=
| TimerError (msg : string)
| TimerError_uv (l : PyObject)
| TypeError (msg : string)
| ValueError (msg : string)
| MemoryError.

(** ** Native handles and the world *)

Definition ptr := nat.

(** The part of a [uv_timer_t] the wrapper reads and writes: the opaque
    [data] back-pointer and the repeat interval in milliseconds. *)
Record uv_timer_t := mkHandle { handle_data : option PyObject; handle_repeat : Z }.

Inductive block :=
| Live (h : uv_timer_t)
| Freed.

(** The [Timer] struct. Its declaration is outside timer.c; these are the
    fields timer.c uses. A C [NULL] is [None]. *)
Record Timer := mkTimer {
  loop : option PyObject;
  callback : option PyObject;
  data : option PyObject;
  uv_timer : option ptr;
  initialized : bool;
  active : bool;
  closed : bool
}.

(** What the wrapper asks of libuv, the allocator and user code, in order. *)
Inductive event :=
| Ev_uv_timer_init (h : ptr)
| Ev_uv_timer_start (h : ptr) (timeout repeat : Z)
| Ev_uv_timer_stop (h : ptr)
| Ev_uv_timer_again (h : ptr)
| Ev_uv_close (h : ptr)
| Ev_PyMem_Free (h : ptr)
| Ev_call (cb : PyObject) (arg : option PyObject)
| Ev_unraisable (cb : option PyObject)
| Ev_tp_free.

(** [closing] is the loop's queue of close requests not yet confirmed,
    [scheduled] its set of armed timers. *)
Record World := mkWorld {
  self : Timer;
  ob_refcnt : gmap nat Z;
  heap : list block;
  closing : list ptr;
  scheduled : list ptr;
  trace : list event
}.

(** Undefined behaviour of the C program. *)
Inductive fault :=
| NullHandle
| UseAfterFree
| WildPointer
| NullObject
| CastOutOfRange
| AssertionFailed.

Inductive outcome (A : Type) :=
| Ret (a : A)
| Raise (e : exn)
| Fault (f : fault).
Arguments Ret {A} a.
Arguments Raise {A} e.
Arguments Fault {A} f.

(** ** A state monad with Python exceptions and C faults *)

Definition M (A : Type) := World -> outcome A * World.

Definition ret {A} (a : A) : M A := fun w => (Ret a, w).
Definition raise {A} (e : exn) : M A := fun w => (Raise e, w).
Definition fault_with {A} (f : fault) : M A := fun w => (Fault f, w).

Definition bind {A B} (c : M A) (k : A -> M B) : M B :=
  fun w =>
    match c w with
    | (Ret a, w') => k a w'
    | (Raise e, w') => (Raise e, w')
    | (Fault f, w') => (Fault f, w')
    end.

Notation "x <- c ;; k" := (bind c (fun x => k))
  (at level 100, c at next level, right associativity).
Notation "c ;;; k" := (bind c (fun _ => k))
  (at level 100, right associativity).

Definition gets {A} (f : World -> A) : M A := fun w => (Ret (f w), w).
Definition modify (f : World -> World) : M unit := fun w => (Ret tt, f w).

Definition set_self (t : Timer) (w : World) : World :=
  mkWorld t (ob_refcnt w) (heap w) (closing w) (scheduled w) (trace w).
Definition set_refcnt (m : gmap nat Z) (w : World) : World :=
  mkWorld (self w) m (heap w) (closing w) (scheduled w) (trace w).
Definition set_heap (h : list block) (w : World) : World :=
  mkWorld (self w) (ob_refcnt w) h (closing w) (scheduled w) (trace w).
Definition set_closing (q : list ptr) (w : World) : World :=
  mkWorld (self w) (ob_refcnt w) (heap w) q (scheduled w) (trace w).
Definition set_scheduled (s : list ptr) (w : World) : World :=
  mkWorld (self w) (ob_refcnt w) (heap w) (closing w) s (trace w).
Definition log (e : event) (w : World) : World :=
  mkWorld (self w) (ob_refcnt w) (heap w) (closing w) (scheduled w) (trace w ++ [e]).

(** Assignments to the fields of [self]. *)
Definition with_loop (v : option PyObject) (t : Timer) : Timer :=
  mkTimer v (callback t) (data t) (uv_timer t) (initialized t) (active t) (closed t).
Definition with_callback (v : option PyObject) (t : Timer) : Timer :=
  mkTimer (loop t) v (data t) (uv_timer t) (initialized t) (active t) (closed t).
Definition with_data (v : option PyObject) (t : Timer) : Timer :=
  mkTimer (loop t) (callback t) v (uv_timer t) (initialized t) (active t) (closed t).
Definition with_uv_timer (v : option ptr) (t : Timer) : Timer :=
  mkTimer (loop t) (callback t) (data t) v (initialized t) (active t) (closed t).
Definition with_initialized (v : bool) (t : Timer) : Timer :=
  mkTimer (loop t) (callback t) (data t) (uv_timer t) v (active t) (closed t).
Definition with_active (v : bool) (t : Timer) : Timer :=
  mkTimer (loop t) (callback t) (data t) (uv_timer t) (initialized t) v (closed t).
Definition with_closed (v : bool) (t : Timer) : Timer :=
  mkTimer (loop t) (callback t) (data t) (uv_timer t) (initialized t) (active t) v.

Definition assign (f : Timer -> Timer) : M unit :=
  modify (fun w => set_self (f (self w)) w).

(** ** CPython reference counting *)

(** The count of an object that is not in the map is 0: the map holds
    the references a world was given and those the code of timer.c takes
    and gives back. *)
Definition refcnt (w : World) (o : PyObject) : Z :=
  default 0 (ob_refcnt w !! ob_addr o).

Definition add_ref (d : Z) (o : PyObject) (w : World) : World :=
  set_refcnt (<[ob_addr o := refcnt w o + d]> (ob_refcnt w)) w.

Definition Py_INCREF (o : PyObject) : M unit := modify (add_ref 1 o).

(** The counter part of [Py_DECREF]: the count goes down by one. *)
Definition Py_DECREF_counter (o : PyObject) : M unit := modify (add_ref (-1) o).

(** ** The allocator and libuv *)

(** What the environment answers during one call of the wrapper: whether
    [PyMem_Malloc] finds memory, and the status codes of libuv. *)
Record uv_env := mkEnv {
  malloc_ok : bool;
  init_r : Z;
  start_r : Z;
  stop_r : Z;
  again_r : Z
}.

Definition env_ok : uv_env := mkEnv true 0 0 0 0.

(** [PyMem_Malloc(sizeof(uv_timer_t))]: a fresh block, or NULL. *)
Definition PyMem_Malloc (env : uv_env) : M (option ptr) :=
  if malloc_ok env then
    p <- gets (fun w => length (heap w)) ;;
    modify (fun w => set_heap (heap w ++ [Live (mkHandle None 0)]) w) ;;;
    ret (Some p)
  else ret None.

(** Reading through a handle pointer: NULL, a freed block and a pointer
    outside the heap are faults. *)
Definition deref (h : option ptr) : M uv_timer_t :=
  match h with
  | None => fault_with NullHandle
  | Some p =>
      b <- gets (fun w => heap w !! p) ;;
      match b with
      | Some (Live c) => ret c
      | Some Freed => fault_with UseAfterFree
      | None => fault_with WildPointer
      end
  end.

Definition store (p : ptr) (c : uv_timer_t) : M unit :=
  modify (fun w => set_heap (<[p := Live c]> (heap w)) w).

(** [PyMem_Free(handle)]. *)
Definition PyMem_Free (p : ptr) : M unit :=
  deref (Some p) ;;;
  modify (fun w => log (Ev_PyMem_Free p) (set_heap (<[p := Freed]> (heap w)) w)).

(** The loop's set of armed timers: a timer is in it at most once. *)
Fixpoint unschedule (p : ptr) (l : list ptr) : list ptr :=
  match l with
  | [] => []
  | q :: l' => if Nat.eqb p q then unschedule p l' else q :: unschedule p l'
  end.

Definition schedule (p : ptr) (l : list ptr) : list ptr := (unschedule p l ++ [p])%list.

Definition arm (p : ptr) : M unit :=
  modify (fun w => set_scheduled (schedule p (scheduled w)) w).

Definition disarm (p : ptr) : M unit :=
  modify (fun w => set_scheduled (unschedule p (scheduled w)) w).

(** The Loop collaborator (libuv) is not part of timer.c. Its operations
    are modelled from the spec, section 6: each needs a native resource
    that exists; registration, cancellation and re-arming answer a status
    code chosen by the loop; the repeat interval is kept in the resource;
    an accepted registration arms the resource and an accepted
    cancellation disarms it; a close request disarms it and is queued
    until the loop confirms it. *)

(** Modelled from the spec: the macro [SELF_LOOP] (declared outside
    timer.c), the native loop behind [self->loop]; it reads through
    [self->loop], so a NULL loop is a fault. *)
Definition SELF_LOOP : M PyObject :=
  l <- gets (fun w => loop (self w)) ;;
  match l with
  | Some l' => ret l'
  | None => fault_with NullObject
  end.

(** Modelled from the spec: [uv_timer_init], binding a block to the loop. *)
Definition uv_timer_init (env : uv_env) (l : PyObject) (p : ptr) : M Z :=
  deref (Some p) ;;;
  modify (log (Ev_uv_timer_init p)) ;;;
  ret (init_r env).

(** Modelled from the spec: [uv_timer_start], the spec's [register_timer];
    on success the resource holds the repeat interval and is armed. *)
Definition uv_timer_start (env : uv_env) (h : option ptr) (timeout repeat : Z) : M Z :=
  c <- deref h ;;
  match h with
  | Some p =>
      modify (log (Ev_uv_timer_start p timeout repeat)) ;;;
      (if start_r env =? 0 then
         store p (mkHandle (handle_data c) repeat) ;;;
         arm p
       else ret tt) ;;;
      ret (start_r env)
  | None => fault_with NullHandle
  end.

(** Modelled from the spec: [uv_timer_stop], the spec's [cancel_timer]. *)
Definition uv_timer_stop (env : uv_env) (h : option ptr) : M Z :=
  deref h ;;;
  match h with
  | Some p =>
      modify (log (Ev_uv_timer_stop p)) ;;;
      (if stop_r env =? 0 then disarm p else ret tt) ;;;
      ret (stop_r env)
  | None => fault_with NullHandle
  end.

(** Modelled from the spec: [uv_timer_again], the spec's [rearm_timer].
    In the words of timer.c's own method table: stop the timer, and if it
    is repeating restart it using the repeat value as the timeout. *)
Definition uv_timer_again (env : uv_env) (h : option ptr) : M Z :=
  c <- deref h ;;
  match h with
  | Some p =>
      modify (log (Ev_uv_timer_again p)) ;;;
      (if again_r env =? 0 then
         disarm p ;;;
         (if handle_repeat c =? 0 then ret tt else arm p)
       else ret tt) ;;;
      ret (again_r env)
  | None => fault_with NullHandle
  end.

(** Modelled from the spec: [uv_timer_get_repeat], the spec's [get_repeat]. *)
Definition uv_timer_get_repeat (h : option ptr) : M Z :=
  c <- deref h ;;
  ret (handle_repeat c).

(** Modelled from the spec: [uv_timer_set_repeat], the spec's [set_repeat]. *)
Definition uv_timer_set_repeat (h : option ptr) (repeat : Z) : M unit :=
  c <- deref h ;;
  match h with
  | Some p => store p (mkHandle (handle_data c) repeat)
  | None => fault_with NullHandle
  end.

(** Modelled from the spec: [uv_close], the spec's [request_close]; the
    resource can fire no more and the request is queued until the loop
    confirms it. *)
Definition uv_close (h : option ptr) : M unit :=
  deref h ;;;
  match h with
  | Some p =>
      modify (fun w => log (Ev_uv_close p) (set_closing (closing w ++ [p]) w)) ;;;
      disarm p
  | None => fault_with NullHandle
  end.

(** Modelled from the spec: [raise_uv_exception(loop, class)] (defined
    outside timer.c) sets an exception of the given class that wraps the
    last error of the loop it is handed; the status returned to the caller
    is not passed to it. The answer is the exception set, which the caller
    raises by returning NULL. It reads the loop, so a NULL loop is a
    fault. *)
Definition raise_uv_exception (l : option PyObject) : M exn :=
  match l with
  | Some l' => ret (TimerError_uv l')
  | None => fault_with NullObject
  end.

(** The cast [(int64_t)(d * 1000)]. *)
Definition to_milliseconds (d : double) : M Z :=
  match int64_of_double (double_mul d d_1000) with
  | Some z => ret z
  | None => fault_with CastOutOfRange
  end.

(** The arguments of [start] after [PyArg_ParseTupleAndKeywords] with
    format ["Odd|O"]; [data] is optional. *)
Record start_args := mkArgs {
  arg_callback : PyObject;
  arg_timeout : double;
  arg_repeat : double;
  arg_data : option PyObject
}.

(** ** The methods that release no reference *)

Definition Timer_func_stop (env : uv_env) : M unit :=
  t <- gets self ;;
  if negb (active t) then raise (TimerError "Timer is not active.") else
  r <- uv_timer_stop env (uv_timer t) ;;
  if negb (r =? 0) then
    l <- gets (fun w => loop (self w)) ;;
    e <- raise_uv_exception l ;;
    raise e
  else
  assign (with_active false) ;;;
  ret tt.

Definition Timer_func_again (env : uv_env) : M unit :=
  t <- gets self ;;
  if closed t then raise (TimerError "Timer is closed") else
  r <- uv_timer_again env (uv_timer t) ;;
  if negb (r =? 0) then
    l <- gets (fun w => loop (self w)) ;;
    e <- raise_uv_exception l ;;
    raise e
  else
  ret tt.

Definition Timer_func_close : M unit :=
  assign (with_closed true) ;;;
  t <- gets self ;;
  match uv_timer t with
  | Some _ => uv_close (uv_timer t)
  | None => ret tt
  end ;;;
  ret tt.

Definition Timer_repeat_get : M double :=
  t <- gets self ;;
  if closed t then raise (TimerError "Timer is closed") else
  ms <- uv_timer_get_repeat (uv_timer t) ;;
  ret (double_div (double_of_int64 ms) d_1000).

(** [PyFloat_AsDouble]: the value, or [-1.0] with an error set. *)
Definition PyFloat_AsDouble (v : PyValue) : double * option exn :=
  match v with
  | PyFloat d => (d, None)
  | PyNotNumber _ => (d_minus_1, Some (TypeError "a float is required"))
  end.

(** [Timer_repeat_set(self, value, closure)]; [value = None] is the
    deletion of the attribute. Returning 0 is [Ret tt], returning -1 is
    the exception that was set. *)
Definition Timer_repeat_set (value : option PyValue) : M unit :=
  t <- gets self ;;
  if closed t then raise (TimerError "Timer is closed") else
  match value with
  | None => raise (TypeError "cannot delete attribute")
  | Some v =>
      let '(repeat, err) := PyFloat_AsDouble v in
      match (if double_eq repeat d_minus_1 then err else None) with
      | Some e => raise e
      | None =>
          if double_lt repeat d_zero then
            raise (ValueError "a positive float or 0.0 is required")
          else
            ms <- to_milliseconds repeat ;;
            uv_timer_set_repeat (uv_timer t) ms
      end
  end.

(** A call of one of the Python-visible methods of the Timer, with what
    the environment answers during the call. *)
Inductive method :=
| Call_init (args : option PyObject)
| Call_start (env : uv_env) (args : option start_args)
| Call_stop (env : uv_env)
| Call_again (env : uv_env)
| Call_close
| Call_repeat_get
| Call_repeat_set (value : option PyValue)
| Loop_confirms_close.

(** Running an operation: its outcome and the world it leaves. *)
Definition result_of {A} (c : M A) (w : World) : outcome A := fst (c w).
Definition world_after {A} (c : M A) (w : World) : World := snd (c w).

(** ** The code that releases references *)

(** When a count drops to zero the interpreter destroys the object, and
    the destructor of an object is user code: it may call the methods of
    the Timer. The functions of timer.c that release a reference are
    therefore written over [dealloc], what the interpreter runs for an
    object other than the Timer whose count has reached zero. *)
Module Reentrant.
Section UserCode.

Variable dealloc : PyObject -> M unit.

(** [Py_DECREF] of an object that is not the Timer (callback, data, loop,
    a callback's result). *)
Definition Py_DECREF_object (o : PyObject) : M unit :=
  Py_DECREF_counter o ;;;
  n <- gets (fun w => refcnt w o) ;;
  if n =? 0 then dealloc o else ret tt.

Definition Py_XDECREF (o : option PyObject) : M unit :=
  match o with
  | Some o' => Py_DECREF_object o'
  | None => ret tt
  end.

(** [Py_CLEAR(field)]: the field is set to NULL, then its old value is
    released. *)
Definition Py_CLEAR (get : Timer -> option PyObject)
    (set : option PyObject -> Timer -> Timer) : M unit :=
  tmp <- gets (fun w => get (self w)) ;;
  assign (set None) ;;;
  Py_XDECREF tmp.

Definition Timer_tp_clear : M unit :=
  Py_CLEAR data with_data ;;;
  Py_CLEAR callback with_callback ;;;
  Py_CLEAR loop with_loop.

Definition Timer_tp_dealloc : M unit :=
  Timer_tp_clear ;;;
  modify (log Ev_tp_free).

(** [Py_DECREF] of any object: when the count of the Timer drops to zero
    the interpreter runs its [tp_dealloc]. *)
Definition Py_DECREF (o : PyObject) : M unit :=
  Py_DECREF_counter o ;;;
  n <- gets (fun w => refcnt w o) ;;
  if n =? 0 then
    (if ptr_eqb o Timer_self then Timer_tp_dealloc else dealloc o)
  else ret tt.

(** *** The trampolines *)

(** The loop is single-threaded: taking and releasing the GIL has no
    effect here. A failed [ASSERT] is a fault. *)

(** [on_timer_close(handle)], run by the loop when the resource is fully
    released. *)
Definition on_timer_close (handle : option ptr) : M unit :=
  match handle with
  | None => fault_with AssertionFailed
  | Some p =>
      c <- deref handle ;;
      match handle_data c with
      | None => fault_with NullObject
      | Some obj =>
          Py_DECREF obj ;;;
          c' <- deref handle ;;
          store p (mkHandle None (handle_repeat c')) ;;;
          PyMem_Free p
      end
  end.

(** [on_timer_callback(timer, status)], run by the loop at each firing.
    [call cb self data] is the user's code behind
    [PyObject_CallFunctionObjArgs]; it answers [None] when the callback
    raised. The callback handed to [PyErr_WriteUnraisable] is read again
    from the Timer after the call. *)
Definition on_timer_callback (call : PyObject -> PyObject -> option PyObject -> M (option PyObject))
    (timer : option ptr) (status : Z) : M unit :=
  match timer with
  | None => fault_with AssertionFailed
  | Some _ =>
      if negb (status =? 0) then fault_with AssertionFailed else
      c <- deref timer ;;
      match handle_data c with
      | None => fault_with AssertionFailed
      | Some slf =>
          Py_INCREF slf ;;;
          cb <- gets (fun w => callback (self w)) ;;
          match cb with
          | None => fault_with NullObject
          | Some f =>
              (if negb (ptr_eqb f Py_None) then
                 d <- gets (fun w => data (self w)) ;;
                 modify (log (Ev_call f d)) ;;;
                 result <- call f slf d ;;
                 match result with
                 | None =>
                     cb' <- gets (fun w => callback (self w)) ;;
                     modify (log (Ev_unraisable cb'))
                 | Some res => Py_DECREF_object res
                 end
               else ret tt) ;;;
              Py_DECREF slf
          end
      end
  end.

(** The loop confirming every pending close request, in order. *)
Fixpoint run_close_callbacks (q : list ptr) : M unit :=
  match q with
  | [] => ret tt
  | p :: q' => on_timer_close (Some p) ;;; run_close_callbacks q'
  end.

Definition uv_run_closing : M unit :=
  q <- gets closing ;;
  modify (set_closing []) ;;;
  run_close_callbacks q.

(** *** The methods that release references *)

(** The [error:] label of [Timer_func_start]. *)
Definition start_error {A} (uv_timer' : option ptr) (callback' data' : PyObject) (e : exn) : M A :=
  match uv_timer' with
  | Some p =>
      c <- deref uv_timer' ;;
      store p (mkHandle None (handle_repeat c)) ;;;
      PyMem_Free p
  | None => ret tt
  end ;;;
  Py_DECREF_object callback' ;;;
  Py_DECREF_object data' ;;;
  assign (with_uv_timer None) ;;;
  raise e.

(** [Timer_func_start(self, args, kwargs)]; [args = None] stands for
    arguments that [PyArg_ParseTupleAndKeywords] rejects. *)
Definition Timer_func_start (env : uv_env) (args : option start_args) : M unit :=
  t <- gets self ;;
  if closed t then raise (TimerError "Timer is closed") else
  if active t then raise (TimerError "Timer is already active.") else
  match args with
  | None => raise (TypeError "bad arguments")
  | Some a =>
      let callback' := arg_callback a in
      let timeout := arg_timeout a in
      let repeat := arg_repeat a in
      let data' := default Py_None (arg_data a) in
      if negb (PyCallable_Check callback') then
        raise (TypeError "a callable or None is required")
      else
        tmp <- gets (fun w => callback (self w)) ;;
        Py_INCREF callback' ;;;
        assign (with_callback (Some callback')) ;;;
        Py_XDECREF tmp ;;;
        if double_lt timeout d_zero then
          start_error None callback' data' (ValueError "a positive value or zero is required")
        else if double_lt repeat d_zero then
          start_error None callback' data' (ValueError "a positive value or zero is required")
        else
          tmp <- gets (fun w => data (self w)) ;;
          Py_INCREF data' ;;;
          assign (with_data (Some data')) ;;;
          Py_XDECREF tmp ;;;
          uv_timer' <- PyMem_Malloc env ;;
          match uv_timer' with
          | None => start_error None callback' data' MemoryError
          | Some p =>
              l <- SELF_LOOP ;;
              r <- uv_timer_init env l p ;;
              if negb (r =? 0) then
                l' <- gets (fun w => loop (self w)) ;;
                e <- raise_uv_exception l' ;;
                start_error uv_timer' callback' data' e
              else
                c <- deref uv_timer' ;;
                store p (mkHandle (Some Timer_self) (handle_repeat c)) ;;;
                assign (with_uv_timer uv_timer') ;;;
                h <- gets (fun w => uv_timer (self w)) ;;
                ms_timeout <- to_milliseconds timeout ;;
                ms_repeat <- to_milliseconds repeat ;;
                r <- uv_timer_start env h ms_timeout ms_repeat ;;
                if negb (r =? 0) then
                  l' <- gets (fun w => loop (self w)) ;;
                  e <- raise_uv_exception l' ;;
                  start_error uv_timer' callback' data' e
                else
                  assign (with_active true) ;;;
                  Py_INCREF Timer_self ;;;
                  ret tt
          end
  end.

(** [Timer_tp_init(self, args, kwargs)]; [args = None] stands for
    arguments that are not a single Loop. *)
Definition Timer_tp_init (args : option PyObject) : M unit :=
  t <- gets self ;;
  if initialized t then raise (TimerError "Object already initialized") else
  match args with
  | None => raise (TypeError "bad arguments")
  | Some loop' =>
      tmp <- gets (fun w => loop (self w)) ;;
      Py_INCREF loop' ;;;
      assign (with_loop (Some loop')) ;;;
      Py_XDECREF tmp ;;;
      assign (with_initialized true) ;;;
      assign (with_active false) ;;;
      assign (with_closed false) ;;;
      assign (with_uv_timer None)
  end.

(** The world a call leaves, whatever its outcome. *)
Definition call_method (c : method) (w : World) : World :=
  match c with
  | Call_init args => world_after (Timer_tp_init args) w
  | Call_start env args => world_after (Timer_func_start env args) w
  | Call_stop env => world_after (Timer_func_stop env) w
  | Call_again env => world_after (Timer_func_again env) w
  | Call_close => world_after Timer_func_close w
  | Call_repeat_get => world_after Timer_repeat_get w
  | Call_repeat_set value => world_after (Timer_repeat_set value) w
  | Loop_confirms_close => world_after uv_run_closing w
  end.

Definition call_methods (cs : list method) (w : World) : World :=
  fold_left (fun w' c => call_method c w') cs w.

End UserCode.
End Reentrant.

(** ** The Timer with destructors that run no code of their own *)

(** The released objects of the statements below are plain: destroying
    one calls nothing. *)
Definition quiet (o : PyObject) : M unit := ret tt.
Arguments quiet o /.

Definition Py_XDECREF : option PyObject -> M unit := Reentrant.Py_XDECREF quiet.
Definition Py_CLEAR : (Timer -> option PyObject) -> (option PyObject -> Timer -> Timer) -> M unit :=
  Reentrant.Py_CLEAR quiet.
Definition Timer_tp_clear : M unit := Reentrant.Timer_tp_clear quiet.
Definition Timer_tp_dealloc : M unit := Reentrant.Timer_tp_dealloc quiet.
Definition Py_DECREF : PyObject -> M unit := Reentrant.Py_DECREF quiet.
Definition on_timer_close : option ptr -> M unit := Reentrant.on_timer_close quiet.
Definition on_timer_callback :
    (PyObject -> PyObject -> option PyObject -> M (option PyObject)) -> option ptr -> Z -> M unit :=
  Reentrant.on_timer_callback quiet.
Definition run_close_callbacks : list ptr -> M unit := Reentrant.run_close_callbacks quiet.
Definition uv_run_closing : M unit := Reentrant.uv_run_closing quiet.
Definition Timer_func_start : uv_env -> option start_args -> M unit :=
  Reentrant.Timer_func_start quiet.
Definition Timer_tp_init : option PyObject -> M unit := Reentrant.Timer_tp_init quiet.
Definition call_method : method -> World -> World := Reentrant.call_method quiet.
Definition call_methods : list method -> World -> World := Reentrant.call_methods quiet.

(** [Timer_tp_new]: a zero-filled object with [initialized] false, held by
    one reference. *)
Definition Timer_tp_new : World :=
  mkWorld (mkTimer None None None None false false false)
          (<[ob_addr Timer_self := 1]> ∅) [] [] [] [].

(** How many times the asynchronous close of block [p] was requested. *)
Fixpoint count_close (p : ptr) (tr : list event) : nat :=
  match tr with
  | [] => 0%nat
  | Ev_uv_close q :: tr' => ((if Nat.eqb p q then 1 else 0) + count_close p tr')%nat
  | _ :: tr' => count_close p tr'
  end.

(** The spec's error kinds are one exception class in timer.c, told apart
    by their message. *)
Definition TimerClosedError : exn := TimerError "Timer is closed".
Definition TimerAlreadyActiveError : exn := TimerError "Timer is already active.".
Definition TimerNotActiveError : exn := TimerError "Timer is not active.".

(** ** Sample objects and worlds *)

Definition a_loop : PyObject := mkPyObject 2 false.
Definition cb1 : PyObject := mkPyObject 10 true.
Definition cb2 : PyObject := mkPyObject 11 true.
Definition data1 : PyObject := mkPyObject 20 false.
Definition data2 : PyObject := mkPyObject 21 false.

(** A Timer right after [Timer(loop)]. *)
Definition fresh_timer : World := world_after (Timer_tp_init (Some a_loop)) Timer_tp_new.

Definition start_cb1 : M unit :=
  Timer_func_start env_ok (Some (mkArgs cb1 d_zero d_zero (Some data1))).

(** The fresh Timer after one successful [start]. *)
Definition armed_timer : World := world_after start_cb1 fresh_timer.

(** ** Whole milliseconds *)

(** [x] is exactly [k] milliseconds: [x * 1000 = k] over the reals,
    written without fractions. *)
Definition whole_ms (x : double) (k : Z) : Prop :=
  match x with
  | S754_zero _ => k = 0
  | S754_finite s m e =>
      (if s then -1 else 1) * 1000 * Zpos m * 2 ^ Z.max e 0 = k * 2 ^ Z.max (- e) 0
  | S754_infinity _ | S754_nan => False
  end.

(** A shift record with nothing lost so far. *)
Definition exact_record (m : Z) : shr_record := Build_shr_record m false false.

(** The doubles 1.5, 2 ^ 53 - 64, 2 ^ 53 - 63 and 1e19. *)
Definition d_1_5 : double := S754_finite false 6755399441055744 (-52).
Definition d_big : double := S754_finite false 9007199254740928 0.
Definition d_big_succ : double := S754_finite false 9007199254740929 0.
Definition d_1e19 : double := S754_finite false 4882812500000000 11.

(** ** Garbage-collector support and method sequences *)

(** [Py_VISIT(op)], followed by the rest of the traversal [k]: a NULL
    field is skipped, a non-zero answer of [visit] ends the traversal. *)
Definition Py_VISIT (visit : PyObject -> M Z) (op : option PyObject) (k : M Z) : M Z :=
  match op with
  | Some o =>
      vret <- visit o ;;
      if negb (vret =? 0) then ret vret else k
  | None => k
  end.

(** [Timer_tp_traverse(self, visit, arg)]; each field is read when its
    turn comes. *)
Definition Timer_tp_traverse (visit : PyObject -> M Z) : M Z :=
  d <- gets (fun w => data (self w)) ;;
  Py_VISIT visit d (
    cb <- gets (fun w => callback (self w)) ;;
    Py_VISIT visit cb (
      l <- gets (fun w => loop (self w)) ;;
      Py_VISIT visit l (ret 0))).



(** What [start] needs in order to succeed: an open, idle timer, a
    callable callback, a timeout and a repeat that are not negative and
    convert to milliseconds, memory for the handle, and a loop that the
    Timer is bound to and that accepts the handle. *)
Definition start_accepts (env : uv_env) (a : start_args) (w : World) : Prop :=
  closed (self w) = false /\ active (self w) = false /\
  loop (self w) <> None /\
  PyCallable_Check (arg_callback a) = true /\
  double_lt (arg_timeout a) d_zero = false /\
  double_lt (arg_repeat a) d_zero = false /\
  malloc_ok env = true /\ init_r env = 0 /\ start_r env = 0 /\
  int64_of_double (double_mul (arg_timeout a) d_1000) <> None /\
  int64_of_double (double_mul (arg_repeat a) d_1000) <> None.

(** The objects the Timer refers to, in the order the traversal reports
    them. *)
Definition referents (t : Timer) : list PyObject :=
  (option_list (data t) ++ option_list (callback t) ++ option_list (loop t))%list.

(** The first non-zero answer of [f] along a list, or zero. *)
Fixpoint first_nonzero (f : PyObject -> Z) (l : list PyObject) : Z :=
  match l with
  | [] => 0
  | o :: l' => if f o =? 0 then first_nonzero f l' else f o
  end.

(** ** A repeating timer re-armed by [again] *)

Definition cb3 : PyObject := mkPyObject 12 true.

(** [start(cb1, 0.0, 1.5, data1)]: a timer that repeats every 1.5 s. *)
Definition start_repeating : M unit :=
  Timer_func_start env_ok (Some (mkArgs cb1 d_zero d_1_5 (Some data1))).

(** [start(cb2, 0.0, 0.0, data2)]. *)
Definition start_cb2 : M unit :=
  Timer_func_start env_ok (Some (mkArgs cb2 d_zero d_zero (Some data2))).

(** The fresh Timer after a repeating [start], [stop] and [again]. *)
Definition rearm_after_stop : M unit :=
  start_repeating ;;; Timer_func_stop env_ok ;;; Timer_func_again env_ok.

Definition rearmed_timer : World := world_after rearm_after_stop fresh_timer.

(** ** Destructors that run user code *)

(** A destructor is tame when it leaves the Timer struct as it is,
    leaves every block of the heap in place (it may allocate more), and
    asks the loop to close nothing but the block in the handle slot: it
    may run any code that does not start, stop or initialise this timer
    and does not close it for the first time. *)
Definition tame (dealloc : PyObject -> M unit) : Prop :=
  forall o w,
    self (snd (dealloc o w)) = self w /\
    (length (heap w) <= length (heap (snd (dealloc o w))))%nat /\
    (forall p, In p (closing (snd (dealloc o w))) ->
               In p (closing w) \/ uv_timer (self w) = Some p).

(** The handle slot and the close queue point into the heap. *)
Definition slots_in_heap (w : World) : Prop :=
  (forall p, uv_timer (self w) = Some p -> (p < length (heap w))%nat) /\
  (forall p, In p (closing w) -> (p < length (heap w))%nat).

(** A destructor is gentle when it keeps the handle slot and the close
    queue inside the heap, whatever else it does to the Timer: the plain
    destructors are, and so are those that call methods of this timer. *)
Definition gentle (dealloc : PyObject -> M unit) : Prop :=
  forall o w, slots_in_heap w -> slots_in_heap (snd (dealloc o w)).


(** [__del__] running the user's code [c]: an exception it raises is
    reported and dropped. *)
Definition run_del (c : M unit) : M unit :=
  fun w =>
    match c w with
    | (Raise _, w') => (Ret tt, w')
    | r => r
    end.

(** The object [victim] has a [__del__] that calls [start] with the
    arguments [a]; every other object is plain. *)
Definition restarting (victim : PyObject) (a : start_args) (o : PyObject) : M unit :=
  if ptr_eqb o victim then run_del (Timer_func_start env_ok (Some a)) else ret tt.


(** ** Basic facts about the methods *)

(** Symbolic execution: unfold the monad, then reduce field reads of
    worlds and timers that were just built. *)
Lemma if_same {A} (c : bool) (x : A) : (if c then x else x) = x.
Proof. destruct c; reflexivity. Qed.

Ltac run_monad_step :=
  cbv beta iota delta [bind gets modify ret raise fault_with assign arm disarm
                       raise_uv_exception];
  cbn [quiet fst snd self ob_refcnt heap closing scheduled trace
       set_self set_refcnt set_heap set_closing set_scheduled log add_ref
       loop callback data uv_timer initialized active closed
       with_loop with_callback with_data with_uv_timer
       with_initialized with_active with_closed
       handle_data handle_repeat];
  rewrite ?if_same.

Ltac run_monad := run_monad_step; repeat (progress run_monad_step).

(** Unfolding the release of a reference down to the counter. *)
Ltac open_release :=
  unfold Py_INCREF, Py_XDECREF, Reentrant.Py_XDECREF, Reentrant.Py_DECREF_object,
    Py_DECREF_counter.

Lemma Timer_tp_init_never_started (loop' : PyObject) (w : World) :
  initialized (self w) = false ->
  result_of (Timer_tp_init (Some loop')) w = Ret tt /\
  uv_timer (self (world_after (Timer_tp_init (Some loop')) w)) = None /\
  active (self (world_after (Timer_tp_init (Some loop')) w)) = false /\
  closed (self (world_after (Timer_tp_init (Some loop')) w)) = false /\
  closing (world_after (Timer_tp_init (Some loop')) w) = closing w /\
  trace (world_after (Timer_tp_init (Some loop')) w) = trace w.
Proof.
  intros Hinit.
  unfold result_of, world_after, Timer_tp_init, Reentrant.Timer_tp_init. run_monad.
  rewrite Hinit. unfold Py_INCREF, Reentrant.Py_XDECREF, Reentrant.Py_DECREF_object,
    Py_DECREF_counter.
  destruct (loop (self w)); run_monad; repeat split; reflexivity.
Qed.

Lemma Timer_tp_init_twice (args : option PyObject) (w : World) :
  initialized (self w) = true ->
  Timer_tp_init args w = (Raise (TimerError "Object already initialized"), w).
Proof.
  intros Hinit. unfold Timer_tp_init, Reentrant.Timer_tp_init, bind, gets. now rewrite Hinit.
Qed.

(** Every operation guarded by [closed] refuses a closed timer and leaves
    the world as it was. *)
Lemma Timer_func_start_closed (env : uv_env) (args : option start_args) (w : World) :
  closed (self w) = true ->
  Timer_func_start env args w = (Raise TimerClosedError, w).
Proof.
  intros Hc. unfold Timer_func_start, Reentrant.Timer_func_start, bind, gets. now rewrite Hc.
Qed.

Lemma Timer_func_again_closed (env : uv_env) (w : World) :
  closed (self w) = true ->
  Timer_func_again env w = (Raise TimerClosedError, w).
Proof.
  intros Hc. unfold Timer_func_again, bind, gets. now rewrite Hc.
Qed.

Lemma Timer_repeat_get_closed (w : World) :
  closed (self w) = true ->
  Timer_repeat_get w = (Raise TimerClosedError, w).
Proof.
  intros Hc. unfold Timer_repeat_get, bind, gets. now rewrite Hc.
Qed.

Lemma Timer_repeat_set_closed (value : option PyValue) (w : World) :
  closed (self w) = true ->
  Timer_repeat_set value w = (Raise TimerClosedError, w).
Proof.
  intros Hc. unfold Timer_repeat_set, bind, gets. now rewrite Hc.
Qed.

Lemma Timer_func_start_active (env : uv_env) (args : option start_args) (w : World) :
  closed (self w) = false ->
  active (self w) = true ->
  Timer_func_start env args w = (Raise TimerAlreadyActiveError, w).
Proof.
  intros Hc Ha. unfold Timer_func_start, Reentrant.Timer_func_start, bind, gets. now rewrite Hc, Ha.
Qed.

(** [close] has no guard of its own: whenever the handle slot is set and
    its block is live, one more close request is queued, whatever the
    [closed] flag says. *)
Lemma Timer_func_close_requests (w : World) (p : ptr) (c : uv_timer_t) :
  uv_timer (self w) = Some p ->
  heap w !! p = Some (Live c) ->
  Timer_func_close w =
    (Ret tt,
     set_scheduled (unschedule p (scheduled w))
       (log (Ev_uv_close p)
            (set_closing (closing w ++ [p]) (set_self (with_closed true (self w)) w)))).
Proof.
  intros Hp Hl.
  unfold Timer_func_close, uv_close, deref. run_monad.
  rewrite Hp. run_monad. rewrite Hl. reflexivity.
Qed.

Lemma Timer_func_close_no_handle (w : World) :
  uv_timer (self w) = None ->
  Timer_func_close w = (Ret tt, set_self (with_closed true (self w)) w).
Proof.
  intros Hp.
  unfold Timer_func_close. run_monad. rewrite Hp. reflexivity.
Qed.

Lemma lookup_fresh_block (l : list block) (x y : block) :
  <[length l := x]> ((l ++ [y])%list) !! length l = Some x.
Proof.
  apply list_lookup_insert_eq. rewrite length_app. cbn. lia.
Qed.

(** The [error:] label always ends in the exception (or in a fault). *)
Lemma start_error_not_Ret {A} (h : option ptr) (cb d : PyObject) (e : exn)
    (w : World) (a : A) (w' : World) :
  Reentrant.start_error quiet h cb d e w <> (Ret a, w').
Proof.
  unfold Reentrant.start_error, PyMem_Free, store, deref, Reentrant.Py_DECREF_object,
    Py_DECREF_counter. run_monad.
  destruct h as [p|]; run_monad.
  - destruct (heap w !! p) as [[c|]|] eqn:Hl; run_monad; try discriminate.
    destruct (<[p:=Live (mkHandle None (handle_repeat c))]> (heap w) !! p) as [[c'|]|];
      run_monad; discriminate.
  - discriminate.
Qed.

Ltac absurd_start_error :=
  let H := fresh "H" in
  intros H; exfalso; exact (start_error_not_Ret _ _ _ _ _ _ _ H).


(** [stop] is guarded by [active] alone. *)
Lemma Timer_func_stop_not_active (env : uv_env) (w : World) :
  active (self w) = false ->
  Timer_func_stop env w = (Raise TimerNotActiveError, w).
Proof.
  intros Ha. unfold Timer_func_stop. run_monad. now rewrite Ha.
Qed.

Lemma Timer_func_stop_active (env : uv_env) (w : World) (p : ptr) (c : uv_timer_t) :
  active (self w) = true ->
  uv_timer (self w) = Some p ->
  heap w !! p = Some (Live c) ->
  stop_r env = 0 ->
  Timer_func_stop env w =
    (Ret tt,
     set_self (with_active false (self w))
       (set_scheduled (unschedule p (scheduled w)) (log (Ev_uv_timer_stop p) w))).
Proof.
  intros Ha Hp Hl Hr. unfold Timer_func_stop, uv_timer_stop, deref. run_monad.
  rewrite Ha, Hp. cbn [negb]. run_monad. rewrite Hl. run_monad. rewrite Hr.
  change (0 =? 0) with true. cbn [negb]. run_monad. reflexivity.
Qed.

Lemma refcnt_add_ref_same (d : Z) (o : PyObject) (w : World) :
  refcnt (add_ref d o w) o = refcnt w o + d.
Proof.
  unfold add_ref, refcnt at 1. cbn [ob_refcnt set_refcnt].
  now rewrite lookup_insert_eq.
Qed.

Lemma refcnt_add_ref_other (d : Z) (o o' : PyObject) (w : World) :
  ob_addr o <> ob_addr o' ->
  refcnt (add_ref d o w) o' = refcnt w o'.
Proof.
  intros Hne. unfold add_ref, refcnt at 1. cbn [ob_refcnt set_refcnt].
  now rewrite lookup_insert_ne.
Qed.

(** The firing trampoline with the stored callback [Py_None]: no user code
    runs, nothing is reported, and the temporary hold is given back. *)
Lemma on_timer_callback_None
    (call : PyObject -> PyObject -> option PyObject -> M (option PyObject))
    (w : World) (p : ptr) (c : uv_timer_t) :
  heap w !! p = Some (Live c) ->
  handle_data c = Some Timer_self ->
  callback (self w) = Some Py_None ->
  0 < refcnt w Timer_self ->
  result_of (on_timer_callback call (Some p) 0) w = Ret tt /\
  trace (world_after (on_timer_callback call (Some p) 0) w) = trace w /\
  self (world_after (on_timer_callback call (Some p) 0) w) = self w /\
  refcnt (world_after (on_timer_callback call (Some p) 0) w) Timer_self = refcnt w Timer_self.
Proof.
  intros Hl Hd Hcb Hpos.
  unfold result_of, world_after, on_timer_callback, Reentrant.on_timer_callback, deref,
    Py_INCREF, Py_DECREF, Reentrant.Py_DECREF, Reentrant.Py_DECREF_object, Py_DECREF_counter.
  change (0 =? 0) with true. cbn [negb].
  run_monad. rewrite Hl. run_monad. rewrite Hd. run_monad. rewrite Hcb.
  change (ptr_eqb Py_None Py_None) with true. cbn [negb]. run_monad.
  change (ptr_eqb Timer_self Timer_self) with true. cbn [andb].
  set (w2 := add_ref (-1) Timer_self (add_ref 1 Timer_self w)).
  assert (Hn : refcnt w2 Timer_self = refcnt w Timer_self).
  { unfold w2. rewrite !refcnt_add_ref_same. lia. }
  rewrite Hn.
  destruct (refcnt w Timer_self =? 0) eqn:Hz; [lia|].
  cbn. repeat split. exact Hn.
Qed.

Lemma count_close_snoc (p q : ptr) (tr : list event) :
  count_close p ((tr ++ [Ev_uv_close q])%list) =
    (count_close p tr + (if Nat.eqb p q then 1 else 0))%nat.
Proof.
  induction tr as [|e tr IH]; cbn [app count_close].
  - lia.
  - destruct e; rewrite IH; lia.
Qed.

(** Two calls of [close] on a timer with a live block: both return, and
    the block is asked to close twice. *)
Lemma Timer_func_close_twice (w : World) (p : ptr) (c : uv_timer_t) :
  uv_timer (self w) = Some p ->
  heap w !! p = Some (Live c) ->
  result_of (Timer_func_close ;;; Timer_func_close) w = Ret tt /\
  count_close p (trace (world_after (Timer_func_close ;;; Timer_func_close) w)) =
    (count_close p (trace w) + 2)%nat /\
  closing (world_after (Timer_func_close ;;; Timer_func_close) w) =
    (closing w ++ [p; p])%list.
Proof.
  intros Hp Hl.
  unfold result_of, world_after, bind.
  rewrite (Timer_func_close_requests w p c Hp Hl).
  rewrite (Timer_func_close_requests _ p c) by assumption.
  cbn [fst snd log set_closing set_self set_scheduled trace closing self].
  rewrite !count_close_snoc, Nat.eqb_refl, <- app_assoc.
  repeat split. lia.
Qed.

(** [close] leaves [active] alone, so [stop] still goes through. *)
Lemma Timer_func_stop_after_close (env : uv_env) (w : World) (p : ptr) (c : uv_timer_t) :
  active (self w) = true ->
  uv_timer (self w) = Some p ->
  heap w !! p = Some (Live c) ->
  stop_r env = 0 ->
  active (self (world_after Timer_func_close w)) = true /\
  closed (self (world_after Timer_func_close w)) = true /\
  result_of (Timer_func_close ;;; Timer_func_stop env) w = Ret tt.
Proof.
  intros Ha Hp Hl Hr. unfold result_of, world_after, bind.
  rewrite (Timer_func_close_requests w p c Hp Hl). cbn [fst snd].
  split; [exact Ha|]. split; [reflexivity|].
  now rewrite (Timer_func_stop_active env _ p c).
Qed.

(** ** Lifecycle and ownership properties *)

(** C1. [close] twice on a started timer: both calls return normally, but
    the second one requests the asynchronous close of the same native block
    again. The block is queued twice, and when the loop confirms both
    requests the close trampoline runs on a block it has already freed. *)
Theorem close_twice_requests_native_close_twice :
  let first := start_cb1 ;;; Timer_func_close in
  let w1 := world_after first fresh_timer in
  let w2 := world_after Timer_func_close w1 in
  result_of first fresh_timer = Ret tt /\
  count_close 0%nat (trace w1) = 1%nat /\
  result_of Timer_func_close w1 = Ret tt /\
  count_close 0%nat (trace w2) = 2%nat /\
  closing w2 = [0%nat; 0%nat] /\
  result_of uv_run_closing w2 = Fault UseAfterFree.
Proof.
  vm_compute. repeat split; reflexivity.
Qed.

(** C2. After [close] on an armed timer the [active] flag is still set,
    and a later [stop] succeeds: it returns normally and clears the flag.
    Once the loop has confirmed the close, the same [stop] hands the freed
    block to [uv_timer_stop]. In neither case does it raise. *)
Theorem stop_succeeds_after_close :
  let w := world_after (start_cb1 ;;; Timer_func_close) fresh_timer in
  result_of (start_cb1 ;;; Timer_func_close) fresh_timer = Ret tt /\
  closed (self w) = true /\
  active (self w) = true /\
  result_of (Timer_func_stop env_ok) w = Ret tt /\
  active (self (world_after (Timer_func_stop env_ok) w)) = false /\
  result_of (uv_run_closing ;;; Timer_func_stop env_ok) w = Fault UseAfterFree.
Proof.
  vm_compute. repeat split; reflexivity.
Qed.

(** C3. [again] on a timer that is not closed and whose handle slot is
    NULL (never started) hands the NULL handle to [uv_timer_again]: no
    exception is raised. *)
Theorem again_never_started_null_handle (env : uv_env) (w : World) :
  closed (self w) = false ->
  uv_timer (self w) = None ->
  Timer_func_again env w = (Fault NullHandle, w).
Proof.
  intros Hc Hp. unfold Timer_func_again, uv_timer_again, deref. run_monad.
  rewrite Hc, Hp. reflexivity.
Qed.

Lemma again_never_started_null_handle_witness :
  closed (self fresh_timer) = false /\
  uv_timer (self fresh_timer) = None /\
  Timer_func_again env_ok fresh_timer = (Fault NullHandle, fresh_timer).
Proof.
  split; [reflexivity|]. split; [reflexivity|].
  apply (again_never_started_null_handle env_ok fresh_timer); reflexivity.
Defined.

(** C4. For start; stop; start; close followed by the loop confirming the
    close: the Timer's reference count was raised twice and lowered once.
    The block of the first start is still allocated, still points back to
    the Timer and was never asked to close. With a single start the count
    returns to its initial value. *)
Theorem keep_alive_leaks_on_restart :
  let run :=
    start_cb1 ;;; Timer_func_stop env_ok ;;; start_cb1 ;;;
    Timer_func_close ;;; uv_run_closing in
  let w := world_after run fresh_timer in
  let once := start_cb1 ;;; Timer_func_close ;;; uv_run_closing in
  result_of run fresh_timer = Ret tt /\
  refcnt fresh_timer Timer_self = 1 /\
  refcnt (world_after start_cb1 fresh_timer) Timer_self = 2 /\
  refcnt (world_after (start_cb1 ;;; Timer_func_stop env_ok ;;; start_cb1) fresh_timer)
         Timer_self = 3 /\
  refcnt w Timer_self = 2 /\
  closing w = [] /\
  heap w = [Live (mkHandle (Some Timer_self) 0); Freed] /\
  count_close 0%nat (trace w) = 0%nat /\
  refcnt (world_after once fresh_timer) Timer_self = 1.
Proof.
  vm_compute. repeat split; reflexivity.
Qed.

(** C5. A [start] that fails on a negative timeout, on a timer holding
    callback [cb1], data [data1] and the block of an earlier start/stop
    cycle: the stored callback is now [cb2], which the Timer does not own
    (its count is back to what it was), the count of [data2] has dropped
    without ever being raised, and the handle slot is NULL while the old
    block stays allocated and unclosed. When the allocation fails instead,
    the stored data is replaced as well. *)
Theorem start_failure_is_not_rolled_back :
  let w0 := world_after (start_cb1 ;;; Timer_func_stop env_ok) fresh_timer in
  let bad := Timer_func_start env_ok (Some (mkArgs cb2 d_minus_1 d_zero (Some data2))) in
  let w1 := world_after bad w0 in
  let nomem :=
    Timer_func_start (mkEnv false 0 0 0 0) (Some (mkArgs cb2 d_zero d_zero (Some data2))) in
  callback (self w0) = Some cb1 /\ data (self w0) = Some data1 /\
  uv_timer (self w0) = Some 0%nat /\
  result_of bad w0 = Raise (ValueError "a positive value or zero is required") /\
  callback (self w1) = Some cb2 /\
  refcnt w1 cb2 = refcnt w0 cb2 /\
  refcnt w1 data2 = refcnt w0 data2 - 1 /\
  uv_timer (self w1) = None /\
  heap w1 = [Live (mkHandle (Some Timer_self) 0)] /\
  count_close 0%nat (trace w1) = 0%nat /\
  result_of nomem w0 = Raise MemoryError /\
  callback (self (world_after nomem w0)) = Some cb2 /\
  data (self (world_after nomem w0)) = Some data2 /\
  uv_timer (self (world_after nomem w0)) = None.
Proof.
  vm_compute. repeat split; reflexivity.
Qed.

(** C6. [start] with [Py_None] as callback on an idle, open timer is
    refused with a [TypeError] (whose message names None as acceptable),
    whatever the timeout, repeat and data; the timer is left as it was,
    not armed. *)
Theorem start_rejects_None_callback (env : uv_env) (timeout repeat : double)
    (data' : option PyObject) (w : World) :
  closed (self w) = false ->
  active (self w) = false ->
  Timer_func_start env (Some (mkArgs Py_None timeout repeat data')) w =
    (Raise (TypeError "a callable or None is required"), w).
Proof.
  intros Hc Ha. unfold Timer_func_start, Reentrant.Timer_func_start. run_monad.
  rewrite Hc, Ha. reflexivity.
Qed.

Lemma start_rejects_None_callback_witness :
  closed (self fresh_timer) = false /\
  active (self fresh_timer) = false /\
  Timer_func_start env_ok (Some (mkArgs Py_None d_zero d_zero None)) fresh_timer =
    (Raise (TypeError "a callable or None is required"), fresh_timer).
Proof.
  split; [reflexivity|]. split; [reflexivity|].
  apply (start_rejects_None_callback env_ok d_zero d_zero None fresh_timer); reflexivity.
Defined.

(** C7. On a timer that is not closed and whose handle slot is NULL, the
    [repeat] getter and the setter (given a float that passes the sign
    check and the conversion to milliseconds) hand the NULL handle to
    libuv instead of raising. *)
Theorem repeat_access_never_started_null_handle (d : double) (ms : Z) (w : World) :
  closed (self w) = false ->
  uv_timer (self w) = None ->
  double_lt d d_zero = false ->
  int64_of_double (double_mul d d_1000) = Some ms ->
  Timer_repeat_get w = (Fault NullHandle, w) /\
  Timer_repeat_set (Some (PyFloat d)) w = (Fault NullHandle, w).
Proof.
  intros Hc Hp Hlt Hms. split.
  - unfold Timer_repeat_get, uv_timer_get_repeat, deref. run_monad.
    rewrite Hc, Hp. reflexivity.
  - unfold Timer_repeat_set, uv_timer_set_repeat, to_milliseconds, deref,
      PyFloat_AsDouble.
    run_monad. rewrite Hc, Hp, Hlt, Hms.
    destruct (double_eq d d_minus_1); reflexivity.
Qed.

Lemma repeat_access_never_started_null_handle_witness :
  closed (self fresh_timer) = false /\
  uv_timer (self fresh_timer) = None /\
  double_lt d_1000 d_zero = false /\
  int64_of_double (double_mul d_1000 d_1000) = Some 1000000 /\
  Timer_repeat_get fresh_timer = (Fault NullHandle, fresh_timer) /\
  Timer_repeat_set (Some (PyFloat d_1000)) fresh_timer = (Fault NullHandle, fresh_timer).
Proof.
  split; [reflexivity|]. split; [reflexivity|].
  split; [reflexivity|]. split; [reflexivity|].
  apply (repeat_access_never_started_null_handle d_1000 1000000 fresh_timer); reflexivity.
Defined.

(** C9. A timer that repeats, stopped and then re-armed by [again], is
    scheduled in the loop while its [active] flag is still false: [stop]
    cleared the flag and took the handle off the schedule, [again] put the
    handle back without setting the flag. On this armed timer a second
    [start] does not fail: it returns normally, replaces the stored
    callback and data, and arms a second block next to the first, which
    stays scheduled and still points back to the Timer. When the flag is
    set, as after a plain [start], the same call fails with
    TimerAlreadyActiveError and changes nothing. *)
Theorem start_replaces_callback_of_rearmed_timer :
  let stopped := world_after (start_repeating ;;; Timer_func_stop env_ok) fresh_timer in
  let w := rearmed_timer in
  let w' := world_after start_cb2 w in
  scheduled stopped = [] /\
  result_of rearm_after_stop fresh_timer = Ret tt /\
  scheduled w = [0%nat] /\
  active (self w) = false /\ closed (self w) = false /\
  callback (self w) = Some cb1 /\ data (self w) = Some data1 /\
  result_of start_cb2 w = Ret tt /\
  callback (self w') = Some cb2 /\ data (self w') = Some data2 /\
  uv_timer (self w') = Some 1%nat /\
  scheduled w' = [0%nat; 1%nat] /\
  heap w' !! 0%nat = Some (Live (mkHandle (Some Timer_self) 1500)) /\
  start_cb2 armed_timer = (Raise TimerAlreadyActiveError, armed_timer).
Proof.
  vm_compute. repeat split; reflexivity.
Qed.

(** X24. Whenever the [active] flag is set on an open timer, [start]
    fails with TimerAlreadyActiveError and the world is exactly what it
    was: callback, data, handle and schedule are untouched. *)
Theorem start_on_armed_timer_fails_unchanged (env : uv_env)
    (args : option start_args) (w : World) :
  active (self w) = true ->
  closed (self w) = false ->
  Timer_func_start env args w = (Raise TimerAlreadyActiveError, w).
Proof.
  intros Ha Hc. now apply Timer_func_start_active.
Qed.

Lemma start_on_armed_timer_fails_unchanged_witness :
  active (self armed_timer) = true /\
  closed (self armed_timer) = false /\
  callback (self armed_timer) = Some cb1 /\
  data (self armed_timer) = Some data1 /\
  Timer_func_start env_ok (Some (mkArgs cb2 d_zero d_zero (Some data2))) armed_timer =
    (Raise TimerAlreadyActiveError, armed_timer).
Proof.
  split; [reflexivity|]. split; [reflexivity|].
  split; [reflexivity|]. split; [reflexivity|].
  apply (start_on_armed_timer_fails_unchanged env_ok
           (Some (mkArgs cb2 d_zero d_zero (Some data2))) armed_timer); reflexivity.
Defined.

(** C10. [close] on a timer whose handle slot is NULL and for which no
    close is pending (initialized, never started) returns normally and
    sets [closed]; it asks nothing of libuv, frees nothing and touches no
    reference count; the loop then has no close trampoline to run; and
    start, again and both repeat accessors fail with TimerClosedError. *)
Theorem close_never_started (w : World) :
  uv_timer (self w) = None ->
  closing w = [] ->
  let w' := world_after Timer_func_close w in
  result_of Timer_func_close w = Ret tt /\
  closed (self w') = true /\
  trace w' = trace w /\ closing w' = [] /\
  heap w' = heap w /\ ob_refcnt w' = ob_refcnt w /\
  uv_run_closing w' = (Ret tt, w') /\
  (forall env args, Timer_func_start env args w' = (Raise TimerClosedError, w')) /\
  (forall env, Timer_func_again env w' = (Raise TimerClosedError, w')) /\
  Timer_repeat_get w' = (Raise TimerClosedError, w') /\
  (forall value, Timer_repeat_set value w' = (Raise TimerClosedError, w')).
Proof.
  intros Hp Hq. unfold result_of, world_after.
  rewrite (Timer_func_close_no_handle w Hp). cbn [fst snd].
  set (w' := set_self (with_closed true (self w)) w).
  assert (Hc : closed (self w') = true) by reflexivity.
  split; [reflexivity|]. split; [reflexivity|]. split; [reflexivity|].
  split; [exact Hq|]. split; [reflexivity|]. split; [reflexivity|].
  split.
  { unfold uv_run_closing, Reentrant.uv_run_closing. run_monad.
    change (closing w') with (closing w). rewrite Hq. cbn [run_close_callbacks].
    unfold ret, set_closing. destruct w; cbn in *. now subst. }
  split; [intros; now apply Timer_func_start_closed|].
  split; [intros; now apply Timer_func_again_closed|].
  split; [now apply Timer_repeat_get_closed|].
  intros; now apply Timer_repeat_set_closed.
Qed.

Lemma close_never_started_witness :
  uv_timer (self fresh_timer) = None /\
  closing fresh_timer = [] /\
  result_of Timer_func_close fresh_timer = Ret tt /\
  closed (self (world_after Timer_func_close fresh_timer)) = true /\
  trace (world_after Timer_func_close fresh_timer) = trace fresh_timer.
Proof.
  split; [reflexivity|]. split; [reflexivity|].
  pose proof (close_never_started fresh_timer eq_refl eq_refl) as H.
  cbv zeta in H. destruct H as (H1 & H2 & H3 & _).
  split; [exact H1|]. split; [exact H2|exact H3].
Defined.

(** ** Binary64 arithmetic on whole milliseconds *)

(** The number of binary digits brackets the mantissa. *)
Lemma Zdigits2_bounds (m : positive) :
  2 ^ (Zpos (digits2_pos m) - 1) <= Zpos m < 2 ^ Zpos (digits2_pos m).
Proof.
  induction m as [m IH|m IH|]; cbn [digits2_pos].
  - rewrite Pos2Z.inj_succ.
    replace (Z.succ (Zpos (digits2_pos m)) - 1) with (Z.succ (Zpos (digits2_pos m) - 1)) by lia.
    rewrite !Z.pow_succ_r by lia. lia.
  - rewrite Pos2Z.inj_succ.
    replace (Z.succ (Zpos (digits2_pos m)) - 1) with (Z.succ (Zpos (digits2_pos m) - 1)) by lia.
    rewrite !Z.pow_succ_r by lia. lia.
  - cbn. lia.
Qed.

Lemma Zdigits2_unique (m : positive) (d : Z) :
  2 ^ (d - 1) <= Zpos m < 2 ^ d -> Zdigits2 (Zpos m) = d.
Proof.
  intros [Hlo Hhi]. cbn [Zdigits2].
  pose proof (Zdigits2_bounds m) as [Hlo' Hhi'].
  set (d' := Zpos (digits2_pos m)) in *.
  assert (0 < d') by (unfold d'; lia).
  destruct (Z.lt_trichotomy d d') as [Hlt|[Heq|Hgt]]; [exfalso|exact (eq_sym Heq)|exfalso].
  - assert (2 ^ d <= 2 ^ (d' - 1)).
    { destruct (Z.le_gt_cases 0 d).
      - apply Z.pow_le_mono_r; lia.
      - rewrite (Z.pow_neg_r 2 d) by lia. apply Z.pow_nonneg. lia. }
    lia.
  - assert (2 ^ d' <= 2 ^ (d - 1)) by (apply Z.pow_le_mono_r; lia).
    lia.
Qed.

Lemma Zdigits2_shift (m : positive) (n : Z) :
  0 <= n -> Zdigits2 (Zpos m * 2 ^ n) = Zdigits2 (Zpos m) + n.
Proof.
  intros Hn.
  assert (Hpos : 0 < Zpos m * 2 ^ n) by (apply Z.mul_pos_pos; [lia|apply Z.pow_pos_nonneg; lia]).
  destruct (Zpos m * 2 ^ n) as [|q|q] eqn:Hq; try lia.
  apply Zdigits2_unique. rewrite <- Hq.
  pose proof (Zdigits2_bounds m) as [Hlo Hhi]. cbn [Zdigits2].
  replace (Zpos (digits2_pos m) + n - 1) with (Zpos (digits2_pos m) - 1 + n) by lia.
  rewrite !Z.pow_add_r by lia.
  assert (0 < 2 ^ n) by (apply Z.pow_pos_nonneg; lia).
  split; [apply Z.mul_le_mono_nonneg_r; lia | apply Z.mul_lt_mono_pos_r; lia].
Qed.

Lemma shr_1_even (M : Z) :
  0 < M -> shr_1 (exact_record (2 * M)) = exact_record M.
Proof.
  intros HM. destruct M as [|p|p]; try lia. reflexivity.
Qed.

Lemma iter_pos_shr_1_exact (p : positive) :
  forall M, 0 < M ->
  SpecFloat.iter_pos shr_1 p (exact_record (M * 2 ^ Zpos p)) = exact_record M.
Proof.
  induction p as [p IH|p IH|]; intros M HM; cbn [SpecFloat.iter_pos].
  - replace (M * 2 ^ Zpos p~1) with (2 * ((M * 2 ^ Zpos p) * 2 ^ Zpos p)).
    2:{ replace (Zpos p~1) with (Zpos p + Zpos p + 1) by lia.
        rewrite !Z.pow_add_r, Z.pow_1_r by lia. lia. }
    assert (0 < 2 ^ Zpos p) by (apply Z.pow_pos_nonneg; lia).
    rewrite shr_1_even by nia.
    rewrite IH by nia. apply IH. exact HM.
  - replace (M * 2 ^ Zpos p~0) with ((M * 2 ^ Zpos p) * 2 ^ Zpos p).
    2:{ replace (Zpos p~0) with (Zpos p + Zpos p) by lia.
        rewrite Z.pow_add_r by lia. lia. }
    assert (0 < 2 ^ Zpos p) by (apply Z.pow_pos_nonneg; lia).
    rewrite IH by nia. apply IH. exact HM.
  - rewrite Z.pow_1_r, Z.mul_comm. now apply shr_1_even.
Qed.

Lemma bounded_inv (m : positive) (e : Z) :
  bounded 53 1024 m e = true ->
  fexp 53 1024 (Zdigits2 (Zpos m) + e) = e /\ e <= 971.
Proof.
  unfold bounded, canonical_mantissa. intros H.
  apply andb_prop in H as [H1 H2].
  apply Z.eqb_eq in H1. apply Z.leb_le in H2. cbn [Zdigits2]. split; [exact H1|lia].
Qed.

Lemma binary_round_aux_exact (s : bool) (Q E : Z) (m : positive) (e : Z) :
  bounded 53 1024 m e = true ->
  E <= e ->
  Q = Zpos m * 2 ^ (e - E) ->
  binary_round_aux 53 1024 s Q E loc_Exact = S754_finite s m e.
Proof.
  intros Hb HE HQ.
  destruct (bounded_inv m e Hb) as [Hcan Hmax].
  assert (Hdig : Zdigits2 Q = Zdigits2 (Zpos m) + (e - E)).
  { rewrite HQ. apply Zdigits2_shift. lia. }
  assert (Hfirst : shr_fexp 53 1024 Q E loc_Exact = (exact_record (Zpos m), e)).
  { unfold shr_fexp. rewrite Hdig.
    replace (Zdigits2 (Zpos m) + (e - E) + E) with (Zdigits2 (Zpos m) + e) by lia.
    rewrite Hcan. cbn [shr_record_of_loc]. fold (exact_record Q).
    unfold shr. destruct (e - E) as [|p|p] eqn:Hn; try lia.
    - rewrite HQ, Z.mul_1_r. f_equal. lia.
    - rewrite HQ, iter_pos_shr_1_exact by lia. f_equal. lia. }
  assert (Hsecond : shr_fexp 53 1024 (Zpos m) e loc_Exact = (exact_record (Zpos m), e)).
  { unfold shr_fexp. rewrite Hcan, Z.sub_diag. reflexivity. }
  unfold binary_round_aux. rewrite Hfirst.
  cbn [exact_record shr_m loc_of_shr_record round_nearest_even].
  rewrite Hsecond. cbn [exact_record shr_m].
  replace (e <=? 1024 - 53) with true by (symmetry; apply Z.leb_le; lia).
  reflexivity.
Qed.

Lemma Pos_iter_xO (m d : positive) :
  Zpos (Pos.iter xO m d) = Zpos m * 2 ^ Zpos d.
Proof.
  induction d as [|d IH] using Pos.peano_ind.
  - cbn [Pos.iter]. rewrite Z.pow_1_r. lia.
  - rewrite Pos.iter_succ, Pos2Z.inj_succ, Z.pow_succ_r by lia.
    change (Zpos (Pos.iter xO m d)~0) with (2 * Zpos (Pos.iter xO m d)).
    rewrite IH. lia.
Qed.

Lemma shl_align_spec (mx : positive) (ex ex' : Z) :
  ex' <= ex ->
  snd (shl_align mx ex ex') = ex' /\
  Zpos (fst (shl_align mx ex ex')) = Zpos mx * 2 ^ (ex - ex').
Proof.
  intros Hle. unfold shl_align.
  destruct (ex' - ex) as [|d|d] eqn:Hd; try lia; cbn [fst snd].
  - replace (ex - ex') with 0 by lia. rewrite Z.pow_0_r. lia.
  - rewrite Pos_iter_xO. replace (ex - ex') with (Zpos d) by lia. lia.
Qed.

Lemma bounded_normal (m : positive) (e : Z) :
  Zdigits2 (Zpos m) = 53 -> -1074 <= e <= 971 ->
  bounded 53 1024 m e = true.
Proof.
  intros Hd He. unfold bounded, canonical_mantissa.
  cbn [Zdigits2] in Hd. rewrite Hd.
  apply andb_true_intro. split; [apply Z.eqb_eq|apply Z.leb_le]; unfold fexp, emin; lia.
Qed.

(** Every positive integer below [2 ^ 53] is a double, and the
    conversion from [int64_t] finds it. *)
Lemma binary_normalize_small (k : positive) :
  Zpos k < 2 ^ 53 ->
  exists (mc : positive) (t : Z),
    0 <= t <= 52 /\ Zpos mc = Zpos k * 2 ^ t /\
    Zdigits2 (Zpos mc) = 53 /\
    binary_normalize 53 1024 (Zpos k) 0 false = S754_finite false mc (- t).
Proof.
  intros Hk.
  pose proof (Zdigits2_bounds k) as [Hlo Hhi].
  set (dk := Zpos (digits2_pos k)) in *.
  assert (Hdk : 1 <= dk <= 53).
  { split; [unfold dk; lia|].
    destruct (Z.le_gt_cases dk 53) as [|Hgt]; [assumption|exfalso].
    assert (2 ^ 53 <= 2 ^ (dk - 1)) by (apply Z.pow_le_mono_r; lia). lia. }
  set (t := 53 - dk).
  assert (Hfexp : fexp 53 1024 (dk + 0) = - t) by (unfold fexp, emin, t; lia).
  destruct (shl_align_spec k 0 (- t)) as [Hez Hmz]; [lia|].
  exists (fst (shl_align k 0 (- t))), t.
  assert (Hdig : Zdigits2 (Zpos (fst (shl_align k 0 (- t)))) = 53).
  { rewrite Hmz. replace (0 - - t) with t by lia.
    rewrite Zdigits2_shift by lia. cbn [Zdigits2]. fold dk. lia. }
  split; [lia|]. split; [rewrite Hmz; f_equal; f_equal; lia|]. split; [exact Hdig|].
  cbn [binary_normalize]. unfold binary_round. fold dk. rewrite Hfexp.
  destruct (shl_align k 0 (- t)) as [mz ez] eqn:Hsh. cbn [fst snd] in *. subst ez.
  apply binary_round_aux_exact.
  - apply bounded_normal; [exact Hdig|lia].
  - lia.
  - rewrite Z.sub_diag, Z.pow_0_r. lia.
Qed.

Lemma pow2_pos (n : Z) : 0 <= n -> 0 < 2 ^ n.
Proof. intros. apply Z.pow_pos_nonneg; lia. Qed.

(** A double that is a whole number [k < 2 ^ 53] of milliseconds is a
    normal number with a negative exponent. *)
Lemma whole_ms_shape (m k : positive) (e : Z) :
  bounded 53 1024 m e = true ->
  whole_ms (S754_finite false m e) (Zpos k) ->
  Zpos k < 2 ^ 53 ->
  exists a, e = - a /\ 9 <= a /\
    1000 * Zpos m = Zpos k * 2 ^ a /\
    2 ^ 52 <= Zpos m < 2 ^ 53.
Proof.
  intros Hb Hw Hk. cbn [whole_ms] in Hw.
  destruct (bounded_inv m e Hb) as [Hcan _].
  pose proof (Zdigits2_bounds m) as [Hlo Hhi].
  cbn [Zdigits2] in Hcan. set (d := Zpos (digits2_pos m)) in *.
  assert (Hd : d <= 53 /\ -1074 <= e /\ (d = 53 \/ e = -1074))
    by (unfold fexp, emin in Hcan; lia).
  destruct Hd as (Hd53 & Hemin & Hcase).
  assert (Hm53 : Zpos m < 2 ^ 53).
  { assert (2 ^ d <= 2 ^ 53) by (apply Z.pow_le_mono_r; lia). lia. }
  destruct (Z.le_gt_cases 0 e) as [Hpos|Hneg].
  - exfalso. rewrite Z.max_l, Z.max_r, Z.pow_0_r in Hw by lia.
    pose proof (pow2_pos e Hpos).
    destruct Hcase as [Hn|He]; [|lia]. rewrite Hn in Hlo.
    change (2 ^ (53 - 1)) with 4503599627370496 in Hlo.
    change (2 ^ 53) with 9007199254740992 in Hk. nia.
  - rewrite Z.max_r, Z.max_l in Hw by lia. rewrite Z.pow_0_r in Hw.
    exists (- e). split; [lia|].
    assert (Ha : 0 < - e) by lia.
    pose proof (pow2_pos (- e) ltac:(lia)) as Hp.
    assert (Hrel : 1000 * Zpos m = Zpos k * 2 ^ (- e)) by lia.
    assert (Hnormal : d = 53).
    { destruct Hcase as [Hn|He]; [exact Hn|exfalso].
      assert (2 ^ 63 <= 2 ^ (- e)) by (apply Z.pow_le_mono_r; lia).
      change (2 ^ 63) with 9223372036854775808 in *.
      change (2 ^ 53) with 9007199254740992 in *. nia. }
    rewrite Hnormal in Hlo. change (2 ^ (53 - 1)) with (2 ^ 52) in Hlo.
    split; [|split; [exact Hrel|split; assumption]].
    destruct (Z.le_gt_cases 9 (- e)) as [|Hsmall]; [assumption|exfalso].
    assert (2 ^ (- e) <= 2 ^ 8) by (apply Z.pow_le_mono_r; lia).
    change (2 ^ 8) with 256 in *.
    change (2 ^ 52) with 4503599627370496 in *.
    change (2 ^ 53) with 9007199254740992 in *. nia.
Qed.

Lemma SFdiv_core_binary_1000 (mc : positive) (t q : Z) :
  Zdigits2 (Zpos mc) = 53 ->
  0 <= t <= 52 ->
  Zpos mc * 2 ^ 53 = q * 8796093022208000 ->
  SFdiv_core_binary 53 1024 (Zpos mc) (- t) 8796093022208000 (-43) =
    (q, - t - 10, loc_Exact).
Proof.
  intros Hd Ht Hq. unfold SFdiv_core_binary. rewrite Hd.
  change (Zdigits2 8796093022208000) with 53.
  replace (Z.min (fexp 53 1024 (53 + - t - (53 + -43))) (- t - -43)) with (- t - 10)
    by (unfold fexp, emin; lia).
  replace (- t - -43 - (- t - 10)) with 53 by lia.
  rewrite Z.shiftl_mul_pow2 by lia. rewrite Hq.
  pose proof (Z_div_mult q 8796093022208000 ltac:(lia)) as Hdiv.
  pose proof (Z_mod_mult q 8796093022208000) as Hmod.
  unfold Z.div, Z.modulo in Hdiv, Hmod.
  destruct (Z.div_eucl (q * 8796093022208000) 8796093022208000) as [q' r'].
  cbn [fst snd] in *. subst q' r'. reflexivity.
Qed.

(** The three conversions on a whole number of milliseconds below
    [2 ^ 53]: the product with 1000 is exact, its truncation is the number
    itself, and the quotient by 1000.0 is the double one started from. *)
Lemma whole_ms_conversions (m k : positive) (e : Z) :
  bounded 53 1024 m e = true ->
  whole_ms (S754_finite false m e) (Zpos k) ->
  Zpos k < 2 ^ 53 ->
  double_mul (S754_finite false m e) d_1000 = double_of_int64 (Zpos k) /\
  int64_of_double (double_of_int64 (Zpos k)) = Some (Zpos k) /\
  double_div (double_of_int64 (Zpos k)) d_1000 = S754_finite false m e.
Proof.
  intros Hb Hw Hk.
  destruct (whole_ms_shape m k e Hb Hw Hk) as (a & He & Ha & Hrel & Hm).
  destruct (binary_normalize_small k Hk) as (mc & t & Ht & Hmc & Hdig & Hnorm).
  pose proof (Zdigits2_bounds k) as [Hklo _].
  pose proof (Zdigits2_bounds mc) as [Hmclo Hmchi].
  cbn [Zdigits2] in Hdig. rewrite Hdig in Hmclo, Hmchi.
  change (2 ^ (53 - 1)) with (2 ^ 52) in Hmclo.
  pose proof (pow2_pos t ltac:(lia)) as Hpt.
  pose proof (pow2_pos a ltac:(lia)) as Hpa.
  (* the exponent of [x] against the one of [k]: a is t + 9 or t + 10 *)
  assert (Hat : a <= t + 10).
  { destruct (Z.le_gt_cases a (t + 10)) as [|Hbig]; [assumption|exfalso].
    assert (2 ^ (t + 11) <= 2 ^ a) by (apply Z.pow_le_mono_r; lia).
    rewrite Z.pow_add_r in * by lia. change (2 ^ 11) with 2048 in *.
    change (2 ^ 52) with 4503599627370496 in *.
    change (2 ^ 53) with 9007199254740992 in *. nia. }
  unfold double_of_int64, double_mul, double_div, dprec, demax. rewrite Hnorm.
  split; [|split].
  - cbn [SFmul d_1000 xorb].
    apply binary_round_aux_exact.
    + apply bounded_normal; [cbn [Zdigits2]; exact Hdig|lia].
    + lia.
    + replace (- t - (e + -43)) with (a + 43 - t) by lia.
      rewrite Hmc, <- Z.mul_assoc, <- Z.pow_add_r by lia.
      replace (t + (a + 43 - t)) with (a + 43) by lia.
      rewrite Z.pow_add_r by lia. change (2 ^ 43) with 8796093022208 in *.
      rewrite Pos2Z.inj_mul. lia.
  - unfold int64_of_double, double_trunc.
    change (Z.shiftl (Zpos mc) (- t)) with (Z.shiftr (Zpos mc) t).
    rewrite Z.shiftr_div_pow2, Hmc, Z.div_mul by lia.
    replace ((INT64_MIN <=? Zpos k) && (Zpos k <=? INT64_MAX)) with true; [reflexivity|].
    symmetry. apply andb_true_intro.
    unfold INT64_MIN, INT64_MAX.
    change (2 ^ 63) with 9223372036854775808.
    change (2 ^ 53) with 9007199254740992 in *.
    split; [apply Z.leb_le|apply Z.leb_le]; lia.
  - cbn [SFdiv d_1000 xorb].
    rewrite (SFdiv_core_binary_1000 mc t (Zpos m * 2 ^ (t + 10 - a))); [|exact Hdig|lia|].
    + apply binary_round_aux_exact; [exact Hb|lia|].
      f_equal. f_equal. lia.
    + assert (Hpow : 2 ^ a * 2 ^ (t + 10 - a) = 2 ^ t * 1024).
      { rewrite <- Z.pow_add_r by lia.
        replace (a + (t + 10 - a)) with (t + 10) by lia.
        rewrite Z.pow_add_r by lia. reflexivity. }
      rewrite Hmc. change (2 ^ 53) with 9007199254740992.
      transitivity (Zpos k * (2 ^ t * 1024) * 8796093022208); [lia|].
      rewrite <- Hpow.
      transitivity (1000 * Zpos m * 2 ^ (t + 10 - a) * 8796093022208); [|lia].
      rewrite Hrel. lia.
Qed.

(** ** The [repeat] property *)

(** What the setter followed by the getter does on an open timer whose
    handle exists, for a float that passes the sign check and whose
    conversion to milliseconds is defined: [ms] is written to the handle
    and read back, divided by 1000.0. *)
Lemma repeat_set_then_get (x : double) (ms : Z) (w : World) (p : ptr) (c : uv_timer_t) :
  closed (self w) = false ->
  uv_timer (self w) = Some p ->
  heap w !! p = Some (Live c) ->
  double_lt x d_zero = false ->
  int64_of_double (double_mul x d_1000) = Some ms ->
  (Timer_repeat_set (Some (PyFloat x)) ;;; Timer_repeat_get) w =
    (Ret (double_div (double_of_int64 ms) d_1000),
     set_heap (<[p := Live (mkHandle (handle_data c) ms)]> (heap w)) w).
Proof.
  intros Hc Hp Hl Hlt Hms.
  unfold Timer_repeat_set, Timer_repeat_get, uv_timer_set_repeat,
    uv_timer_get_repeat, to_milliseconds, deref, store, PyFloat_AsDouble.
  run_monad. rewrite Hc, Hp, Hlt, Hms.
  assert (Hnone : (if double_eq x d_minus_1 then @None exn else None) = None)
    by (destruct (double_eq x d_minus_1); reflexivity).
  rewrite ?Hnone. run_monad. rewrite Hl. run_monad. rewrite Hc, Hp. run_monad.
  rewrite list_lookup_insert_eq by (eapply lookup_lt_Some; exact Hl).
  reflexivity.
Qed.

(** The cast keeps the integral part: for a finite non-negative product
    [m * 2 ^ e] the stored value is [floor (m * 2 ^ e)]. *)
Lemma double_trunc_floor (m : positive) (e : Z) :
  double_trunc (S754_finite false m e) =
    Some (if 0 <=? e then Zpos m * 2 ^ e else Zpos m / 2 ^ (- e)).
Proof.
  unfold double_trunc. destruct (Z.leb_spec 0 e) as [Hpos|Hneg].
  - now rewrite Z.shiftl_mul_pow2.
  - now rewrite Z.shiftl_div_pow2 by lia.
Qed.

Lemma double_eq_refl_finite (m : positive) (e : Z) :
  double_eq (S754_finite false m e) (S754_finite false m e) = true.
Proof.
  unfold double_eq, SFeqb, SFcompare.
  now rewrite Z.compare_refl, Pos.compare_cont_refl.
Qed.

(** What an over-large value does: [1e19 * 1000] is outside [int64_t],
    so the cast in the setter is undefined. *)
Lemma repeat_set_out_of_range :
  double_lt d_1e19 d_zero = false /\
  result_of (start_cb1 ;;; Timer_repeat_set (Some (PyFloat d_1e19))) fresh_timer =
    Fault CastOutOfRange.
Proof.
  vm_compute. split; reflexivity.
Qed.

(** C8, as stated, fails: [2 ^ 53 - 64] seconds is a non-negative finite
    double and a whole number of milliseconds, its product with 1000 fits
    in [int64_t], yet after [repeat = x] the getter answers
    [2 ^ 53 - 63]: the product is rounded to a multiple of 1024 before it is
    truncated. *)
Lemma repeat_round_trip_counterexample :
  closed (self armed_timer) = false /\
  uv_timer (self armed_timer) = Some 0%nat /\
  heap armed_timer !! 0%nat = Some (Live (mkHandle (Some Timer_self) 0)) /\
  valid_binary dprec demax d_big = true /\
  double_lt d_big d_zero = false /\
  whole_ms d_big 9007199254740928000 /\
  int64_of_double (double_mul d_big d_1000) = Some 9007199254740928512 /\
  result_of (Timer_repeat_set (Some (PyFloat d_big)) ;;; Timer_repeat_get) armed_timer =
    Ret d_big_succ /\
  double_eq d_big_succ d_big = false /\
  result_of (Timer_repeat_set (Some (PyFloat d_big)) ;;; Timer_repeat_get) armed_timer <>
    Ret d_big.
Proof.
  split; [reflexivity|]. split; [reflexivity|]. split; [reflexivity|].
  split; [reflexivity|]. split; [reflexivity|]. split; [reflexivity|].
  split; [vm_compute; reflexivity|].
  assert (H : result_of (Timer_repeat_set (Some (PyFloat d_big)) ;;; Timer_repeat_get)
                armed_timer = Ret d_big_succ)
    by (vm_compute; reflexivity).
  split; [exact H|]. split; [reflexivity|].
  rewrite H. discriminate.
Qed.

(** C8, amended. On a timer that is not closed and whose native handle
    exists, for a double [x] that is not negative and whose product with
    1000 (rounded to double) has an integral part [ms] within [int64_t]:
    writing [repeat = x] and reading [repeat] answers
    [double(ms) / 1000.0], [ms] being the truncation of [x * 1000]; and
    whenever [x] is exactly [k] milliseconds with [k < 2 ^ 53], [ms] is
    [k] and the value read is [x] itself (as a double; a negative zero
    reads back as [0.0]). *)
Theorem repeat_round_trip (x : double) (ms : Z) (w : World) (p : ptr) (c : uv_timer_t) :
  closed (self w) = false ->
  uv_timer (self w) = Some p ->
  heap w !! p = Some (Live c) ->
  valid_binary dprec demax x = true ->
  double_lt x d_zero = false ->
  int64_of_double (double_mul x d_1000) = Some ms ->
  result_of (Timer_repeat_set (Some (PyFloat x)) ;;; Timer_repeat_get) w =
    Ret (double_div (double_of_int64 ms) d_1000) /\
  double_trunc (double_mul x d_1000) = Some ms /\
  (forall k, k < 2 ^ 53 -> whole_ms x k ->
     ms = k /\
     double_eq (double_div (double_of_int64 ms) d_1000) x = true /\
     (x <> S754_zero true -> double_div (double_of_int64 ms) d_1000 = x)).
Proof.
  intros Hc Hp Hl Hv Hlt Hms.
  split; [|split].
  - unfold result_of. now rewrite (repeat_set_then_get x ms w p c).
  - unfold int64_of_double in Hms.
    destruct (double_trunc (double_mul x d_1000)) as [z|]; [|discriminate].
    destruct ((INT64_MIN <=? z) && (z <=? INT64_MAX)); [|discriminate].
    exact Hms.
  - intros k Hk Hw.
    destruct x as [s|s| |s m e]; cbn [whole_ms] in Hw; try contradiction.
    + subst k.
      assert (ms = 0) by (destruct s; vm_compute in Hms; congruence).
      subst ms. split; [reflexivity|]. split; [now destruct s|].
      intros Hnz. destruct s; [contradiction|reflexivity].
    + destruct s; [discriminate Hlt|].
      assert (Hkpos : 0 < k).
      { pose proof (pow2_pos (Z.max e 0) ltac:(lia)).
        pose proof (pow2_pos (Z.max (- e) 0) ltac:(lia)). nia. }
      destruct k as [|kp|kp]; try lia.
      destruct (whole_ms_conversions m kp e Hv Hw Hk) as (Hmul & Hcast & Hdiv).
      rewrite Hmul, Hcast in Hms. injection Hms as <-.
      split; [reflexivity|]. rewrite Hdiv.
      split; [apply double_eq_refl_finite|reflexivity].
Qed.

Lemma repeat_round_trip_witness :
  whole_ms d_1_5 1500 /\
  result_of (Timer_repeat_set (Some (PyFloat d_1_5)) ;;; Timer_repeat_get) armed_timer =
    Ret (double_div (double_of_int64 1500) d_1000) /\
  double_div (double_of_int64 1500) d_1000 = d_1_5.
Proof.
  assert (Hw : whole_ms d_1_5 1500) by reflexivity.
  split; [exact Hw|].
  destruct (repeat_round_trip d_1_5 1500 armed_timer 0%nat
              (mkHandle (Some Timer_self) 0)
              eq_refl eq_refl eq_refl eq_refl eq_refl eq_refl) as (Hres & _ & Hexact).
  split; [exact Hres|].
  destruct (Hexact 1500 eq_refl Hw) as (_ & _ & Heq).
  apply Heq. discriminate.
Defined.

(** ** What [start] leaves alone *)






(** ** What the other methods leave alone *)

Lemma Timer_func_stop_frame (env : uv_env) (w : World) :
  heap (world_after (Timer_func_stop env) w) = heap w /\
  ob_refcnt (world_after (Timer_func_stop env) w) = ob_refcnt w /\
  closing (world_after (Timer_func_stop env) w) = closing w /\
  self (world_after (Timer_func_stop env) w) = self w \/
  heap (world_after (Timer_func_stop env) w) = heap w /\
  ob_refcnt (world_after (Timer_func_stop env) w) = ob_refcnt w /\
  closing (world_after (Timer_func_stop env) w) = closing w /\
  self (world_after (Timer_func_stop env) w) = with_active false (self w) /\
  result_of (Timer_func_stop env) w = Ret tt.
Proof.
  unfold world_after, result_of, Timer_func_stop, uv_timer_stop, deref. run_monad.
  destruct (active (self w)); cbn [negb]; [|left; repeat split].
  destruct (uv_timer (self w)) as [p|]; run_monad; [|left; repeat split].
  destruct (heap w !! p) as [[c|]|]; run_monad; try solve [left; repeat split].
  destruct (stop_r env =? 0) eqn:Hs; run_monad; rewrite ?Hs; cbn [negb]; run_monad;
    [right; repeat split|destruct (loop (self w)); run_monad; left; repeat split].
Qed.

Lemma Timer_func_again_frame (env : uv_env) (w : World) :
  heap (world_after (Timer_func_again env) w) = heap w /\
  ob_refcnt (world_after (Timer_func_again env) w) = ob_refcnt w /\
  closing (world_after (Timer_func_again env) w) = closing w /\
  self (world_after (Timer_func_again env) w) = self w.
Proof.
  unfold world_after, Timer_func_again, uv_timer_again, deref. run_monad.
  destruct (closed (self w)); [repeat split|].
  destruct (uv_timer (self w)) as [p|]; run_monad; [|repeat split].
  destruct (heap w !! p) as [[c|]|]; run_monad; try solve [repeat split].
  destruct (again_r env =? 0) eqn:Hs; run_monad;
    [destruct (handle_repeat c =? 0); run_monad|];
    rewrite ?Hs; cbn [negb]; run_monad;
    [| |destruct (loop (self w)); run_monad]; repeat split.
Qed.

Lemma Timer_func_close_frame (w : World) :
  heap (world_after Timer_func_close w) = heap w /\
  ob_refcnt (world_after Timer_func_close w) = ob_refcnt w /\
  self (world_after Timer_func_close w) = with_closed true (self w) /\
  (closing (world_after Timer_func_close w) = closing w \/
   exists p c, uv_timer (self w) = Some p /\ heap w !! p = Some (Live c) /\
     closing (world_after Timer_func_close w) = (closing w ++ [p])%list) /\
  (forall e, result_of Timer_func_close w <> Raise e).
Proof.
  unfold world_after, result_of, Timer_func_close, uv_close, deref. run_monad.
  destruct (uv_timer (self w)) as [p|] eqn:Hp; run_monad.
  - destruct (heap w !! p) as [[c|]|] eqn:Hl; run_monad;
      (split; [reflexivity|]; split; [reflexivity|]; split; [reflexivity|];
       split; [|discriminate]).
    + right. exists p, c. repeat split. exact Hl.
    + now left.
    + now left.
  - split; [reflexivity|]; split; [reflexivity|]; split; [reflexivity|].
    split; [now left|discriminate].
Qed.

Lemma Timer_repeat_get_frame (w : World) :
  world_after Timer_repeat_get w = w.
Proof.
  unfold world_after, Timer_repeat_get, uv_timer_get_repeat, deref. run_monad.
  destruct (closed (self w)); [reflexivity|].
  destruct (uv_timer (self w)) as [p|]; run_monad; [|reflexivity].
  destruct (heap w !! p) as [[c|]|]; reflexivity.
Qed.

Lemma Timer_repeat_set_frame (value : option PyValue) (w : World) :
  self (world_after (Timer_repeat_set value) w) = self w /\
  ob_refcnt (world_after (Timer_repeat_set value) w) = ob_refcnt w /\
  closing (world_after (Timer_repeat_set value) w) = closing w /\
  trace (world_after (Timer_repeat_set value) w) = trace w /\
  length (heap (world_after (Timer_repeat_set value) w)) = length (heap w) /\
  (forall q, uv_timer (self w) <> Some q ->
     heap (world_after (Timer_repeat_set value) w) !! q = heap w !! q).
Proof.
  unfold world_after, Timer_repeat_set, uv_timer_set_repeat, to_milliseconds,
    deref, store, PyFloat_AsDouble.
  run_monad.
  destruct (closed (self w)); [repeat split|].
  destruct value as [[d|o]|]; run_monad; [| |repeat split].
  - destruct (double_eq d d_minus_1); run_monad.
    all: destruct (double_lt d d_zero); run_monad; [repeat split|].
    all: destruct (int64_of_double (double_mul d d_1000)); run_monad; [|repeat split].
    all: destruct (uv_timer (self w)) as [p|]; run_monad; [|repeat split].
    all: destruct (heap w !! p) as [[c|]|]; run_monad; try solve [repeat split].
    all: repeat split;
      [apply length_insert|intros q Hq; apply list_lookup_insert_ne; congruence].
  - change (double_eq d_minus_1 d_minus_1) with true. cbn. repeat split.
Qed.

Lemma Timer_tp_init_frame (args : option PyObject) (w : World) :
  heap (world_after (Timer_tp_init args) w) = heap w /\
  closing (world_after (Timer_tp_init args) w) = closing w /\
  trace (world_after (Timer_tp_init args) w) = trace w /\
  (self (world_after (Timer_tp_init args) w) = self w \/
   uv_timer (self (world_after (Timer_tp_init args) w)) = None /\
   active (self (world_after (Timer_tp_init args) w)) = false).
Proof.
  unfold world_after, Timer_tp_init, Reentrant.Timer_tp_init, Py_INCREF, Py_XDECREF,
    Reentrant.Py_XDECREF, Reentrant.Py_DECREF_object, Py_DECREF_counter.
  run_monad.
  destruct (initialized (self w)); [repeat split; now left|].
  destruct args as [l|]; [|repeat split; now left].
  run_monad. destruct (loop (self w)); run_monad; repeat split; now right.
Qed.

(** The destruction path: the three object fields are cleared, the
    memory of the object is given back, and the native side (handle slot,
    heap, close queue) and the lifecycle flags are not looked at. *)
Lemma Timer_tp_dealloc_frame (w : World) :
  exists w',
    Timer_tp_dealloc w = (Ret tt, w') /\
    heap w' = heap w /\ closing w' = closing w /\
    trace w' = (trace w ++ [Ev_tp_free])%list /\
    uv_timer (self w') = uv_timer (self w) /\
    active (self w') = active (self w) /\
    closed (self w') = closed (self w) /\
    initialized (self w') = initialized (self w) /\
    data (self w') = None /\ callback (self w') = None /\ loop (self w') = None.
Proof.
  unfold Timer_tp_dealloc, Reentrant.Timer_tp_dealloc, Timer_tp_clear,
    Reentrant.Timer_tp_clear, Py_CLEAR, Reentrant.Py_CLEAR, Py_XDECREF, Reentrant.Py_XDECREF,
    Reentrant.Py_DECREF_object, Py_DECREF_counter.
  destruct w as [[l cb d u i a c] m h q sc tr].
  destruct l, cb, d; run_monad; eexists; (split; [reflexivity|]); repeat split.
Qed.

Lemma on_timer_close_frame (h : option ptr) (w : World) :
  uv_timer (self (world_after (on_timer_close h) w)) = uv_timer (self w) /\
  active (self (world_after (on_timer_close h) w)) = active (self w) /\
  closed (self (world_after (on_timer_close h) w)) = closed (self w) /\
  initialized (self (world_after (on_timer_close h) w)) = initialized (self w) /\
  length (heap (world_after (on_timer_close h) w)) = length (heap w) /\
  closing (world_after (on_timer_close h) w) = closing w.
Proof.
  unfold world_after, on_timer_close, Reentrant.on_timer_close, deref. run_monad.
  destruct h as [p|]; run_monad; [|repeat split].
  destruct (heap w !! p) as [[c|]|] eqn:Hl; run_monad; try solve [repeat split].
  destruct (handle_data c) as [obj|]; run_monad; [|repeat split].
  pose proof (lookup_lt_Some _ _ _ Hl) as Hlt.
  unfold Py_DECREF, Reentrant.Py_DECREF, Reentrant.Py_DECREF_object, Py_DECREF_counter,
    store, PyMem_Free, deref. run_monad.
  destruct (refcnt (add_ref (-1) obj w) obj =? 0);
    [destruct (ptr_eqb obj Timer_self)|].
  - destruct (Timer_tp_dealloc_frame (add_ref (-1) obj w))
      as (w' & Heq & Hh & Hq & _ & Hu & Ha & Hc & Hi & _).
    cbn [add_ref heap closing self set_refcnt] in Hh, Hq, Hu, Ha, Hc, Hi.
    change (Reentrant.Timer_tp_dealloc quiet) with Timer_tp_dealloc.
    rewrite Heq. run_monad. rewrite Hh, Hl. run_monad. rewrite Hh.
    rewrite list_lookup_insert_eq by exact Hlt. run_monad.
    rewrite !length_insert.
    repeat split; assumption.
  - run_monad. rewrite Hl. run_monad.
    rewrite list_lookup_insert_eq by exact Hlt. run_monad.
    rewrite !length_insert. repeat split.
  - run_monad. rewrite Hl. run_monad.
    rewrite list_lookup_insert_eq by exact Hlt. run_monad.
    rewrite !length_insert. repeat split.
Qed.

Lemma run_close_callbacks_frame (q : list ptr) :
  forall w,
  uv_timer (self (world_after (run_close_callbacks q) w)) = uv_timer (self w) /\
  active (self (world_after (run_close_callbacks q) w)) = active (self w) /\
  closed (self (world_after (run_close_callbacks q) w)) = closed (self w) /\
  initialized (self (world_after (run_close_callbacks q) w)) = initialized (self w) /\
  length (heap (world_after (run_close_callbacks q) w)) = length (heap w) /\
  closing (world_after (run_close_callbacks q) w) = closing w.
Proof.
  induction q as [|p q IH]; intros w.
  - repeat split.
  - change (run_close_callbacks (p :: q))
      with (on_timer_close (Some p) ;;; run_close_callbacks q).
    pose proof (on_timer_close_frame (Some p) w) as Hone.
    unfold world_after, bind in *.
    destruct (on_timer_close (Some p) w) as [[[]|e|f] w1]; cbn [snd] in *;
      try exact Hone.
    specialize (IH w1).
    destruct Hone as (H1 & H2 & H3 & H4 & H5 & H6).
    destruct IH as (I1 & I2 & I3 & I4 & I5 & I6).
    repeat split; congruence.
Qed.

Lemma uv_run_closing_unfold (w : World) :
  uv_run_closing w = run_close_callbacks (closing w) (set_closing [] w).
Proof.
  unfold uv_run_closing, Reentrant.uv_run_closing. run_monad. reflexivity.
Qed.

(** ** The handle slot over sequences of calls *)

Lemma call_method_eq (c : method) (w : World) :
  call_method c w =
    match c with
    | Call_init args => world_after (Timer_tp_init args) w
    | Call_start env args => world_after (Timer_func_start env args) w
    | Call_stop env => world_after (Timer_func_stop env) w
    | Call_again env => world_after (Timer_func_again env) w
    | Call_close => world_after Timer_func_close w
    | Call_repeat_get => world_after Timer_repeat_get w
    | Call_repeat_set value => world_after (Timer_repeat_set value) w
    | Loop_confirms_close => world_after uv_run_closing w
    end.
Proof. destruct c; reflexivity. Qed.

Lemma call_methods_cons (c : method) (cs : list method) (w : World) :
  call_methods (c :: cs) w = call_methods cs (call_method c w).
Proof. reflexivity. Qed.

(** ** When [start] succeeds *)

Lemma Timer_func_start_Ret (env : uv_env) (a : start_args) (w w1 : World) :
  Timer_func_start env (Some a) w = (Ret tt, w1) ->
  (closed (self w) = false /\ active (self w) = false /\
   PyCallable_Check (arg_callback a) = true /\
   double_lt (arg_timeout a) d_zero = false /\
   double_lt (arg_repeat a) d_zero = false /\
   malloc_ok env = true /\ init_r env = 0 /\ start_r env = 0 /\
   loop (self w) <> None) /\
  exists ms_timeout ms_repeat,
    int64_of_double (double_mul (arg_timeout a) d_1000) = Some ms_timeout /\
    int64_of_double (double_mul (arg_repeat a) d_1000) = Some ms_repeat /\
    heap w1 =
      <[length (heap w) := Live (mkHandle (Some Timer_self) ms_repeat)]>
        ((heap w ++ [Live (mkHandle None 0)])%list) /\
    trace w1 =
      (trace w ++ [Ev_uv_timer_init (length (heap w));
                   Ev_uv_timer_start (length (heap w)) ms_timeout ms_repeat])%list /\
    closing w1 = closing w.
Proof.
  unfold Timer_func_start, Reentrant.Timer_func_start. run_monad.
  destruct (closed (self w)) eqn:Hc; [discriminate|].
  destruct (active (self w)) eqn:Ha; [discriminate|].
  destruct (PyCallable_Check (arg_callback a)) eqn:Hcall; cbn [negb]; [|discriminate].
  open_release.
  destruct (callback (self w)) as [old_cb|]; run_monad.
  all: destruct (double_lt (arg_timeout a) d_zero) eqn:Ht; [absurd_start_error|].
  all: destruct (double_lt (arg_repeat a) d_zero) eqn:Hr; [absurd_start_error|].
  all: run_monad; destruct (data (self w)) as [old_data|]; run_monad.
  all: unfold PyMem_Malloc; destruct (malloc_ok env) eqn:Hm; run_monad;
    [|absurd_start_error].
  all: unfold SELF_LOOP; run_monad; destruct (loop (self w)) as [lp|] eqn:Hlp; run_monad;
    [|discriminate].
  all: unfold uv_timer_init, deref; run_monad.
  all: rewrite list_lookup_middle by reflexivity; run_monad.
  all: destruct (init_r env =? 0) eqn:Hi; cbn [negb]; run_monad; rewrite ?Hlp; run_monad;
    [|absurd_start_error].
  all: run_monad; rewrite list_lookup_middle by reflexivity; run_monad.
  all: unfold store, to_milliseconds; run_monad.
  all: destruct (int64_of_double (double_mul (arg_timeout a) d_1000)) as [mt|] eqn:Hmt;
    run_monad; [|discriminate].
  all: destruct (int64_of_double (double_mul (arg_repeat a) d_1000)) as [mr|] eqn:Hmr;
    run_monad; [|discriminate].
  all: unfold uv_timer_start, deref; run_monad.
  all: rewrite lookup_fresh_block; run_monad.
  all: destruct (start_r env =? 0) eqn:Hs; unfold store; run_monad;
    rewrite ?Hs; cbn [negb]; run_monad; rewrite ?Hlp; run_monad; [|absurd_start_error].
  all: apply Z.eqb_eq in Hi, Hs.
  all: intros H; injection H as <-; run_monad.
  all: split; [repeat split; solve [assumption|discriminate]|].
  all: exists mt, mr; rewrite list_insert_insert_eq, <- !app_assoc; repeat split.
Qed.

Lemma Timer_func_start_accepted (env : uv_env) (a : start_args) (w : World) :
  start_accepts env a w ->
  result_of (Timer_func_start env (Some a)) w = Ret tt.
Proof.
  intros (Hc & Ha & Hlo & Hcall & Ht & Hr & Hm & Hi & Hs & Hmt & Hmr).
  unfold result_of, Timer_func_start, Reentrant.Timer_func_start. run_monad.
  rewrite Hc, Ha, Hcall. cbn [negb].
  open_release.
  destruct (callback (self w)) as [old_cb|]; run_monad.
  all: rewrite Ht, Hr; run_monad.
  all: destruct (data (self w)) as [old_data|]; run_monad.
  all: unfold PyMem_Malloc; rewrite Hm; run_monad.
  all: unfold SELF_LOOP; run_monad; destruct (loop (self w)) as [lp|]; [|congruence].
  all: run_monad; unfold uv_timer_init, deref; run_monad.
  all: rewrite list_lookup_middle by reflexivity; run_monad.
  all: rewrite Hi; cbn [Z.eqb negb]; run_monad.
  all: rewrite list_lookup_middle by reflexivity; run_monad.
  all: unfold store, to_milliseconds; run_monad.
  all: destruct (int64_of_double (double_mul (arg_timeout a) d_1000)); [|congruence].
  all: destruct (int64_of_double (double_mul (arg_repeat a) d_1000)); [|congruence].
  all: run_monad; unfold uv_timer_start, deref; run_monad.
  all: rewrite lookup_fresh_block; run_monad.
  all: rewrite Hs; cbn [Z.eqb negb]; unfold store; run_monad; reflexivity.
Qed.



(** ** Further properties of the methods *)

(** X1. [start] returns normally exactly when the timer is open and
    idle and bound to a loop, the callback is callable, timeout and repeat
    are not negative and convert to milliseconds, the handle can be
    allocated and the loop accepts it. On a Timer that was never
    initialised the loop field is NULL and [start] reads through it. *)
Theorem start_succeeds_iff (env : uv_env) (a : start_args) (w : World) :
  result_of (Timer_func_start env (Some a)) w = Ret tt <-> start_accepts env a w.
Proof.
  split; [|apply Timer_func_start_accepted].
  unfold result_of. intros H.
  destruct (Timer_func_start env (Some a) w) as [o w1] eqn:Hrun.
  cbn [fst] in H. subst o.
  destruct (Timer_func_start_Ret env a w w1 Hrun)
    as ((Hc & Ha & Hcall & Ht & Hr & Hm & Hi & Hs & Hlo) & mt & mr & Hmt & Hmr & _).
  unfold start_accepts. rewrite Hmt, Hmr. repeat split; try assumption; discriminate.
Qed.








(** X6. [stop] gives nothing back: in every outcome the heap, the
    reference counts, the close queue, the handle slot, callback, data and
    the [closed] flag are what they were; it returns normally only on an
    active timer whose cancellation the loop accepted, and then the timer
    is inactive. *)
Theorem stop_retains_the_resource (env : uv_env) (w : World) :
  heap (world_after (Timer_func_stop env) w) = heap w /\
  ob_refcnt (world_after (Timer_func_stop env) w) = ob_refcnt w /\
  closing (world_after (Timer_func_stop env) w) = closing w /\
  uv_timer (self (world_after (Timer_func_stop env) w)) = uv_timer (self w) /\
  callback (self (world_after (Timer_func_stop env) w)) = callback (self w) /\
  data (self (world_after (Timer_func_stop env) w)) = data (self w) /\
  closed (self (world_after (Timer_func_stop env) w)) = closed (self w) /\
  (result_of (Timer_func_stop env) w = Ret tt ->
   active (self w) = true /\ stop_r env = 0 /\
   active (self (world_after (Timer_func_stop env) w)) = false) /\
  (result_of (Timer_func_stop env) w <> Ret tt ->
   active (self (world_after (Timer_func_stop env) w)) = active (self w)).
Proof.
  unfold world_after, result_of, Timer_func_stop, uv_timer_stop, deref. run_monad.
  destruct (active (self w)) eqn:Ha; cbn [negb];
    [|cbn [fst snd]; repeat split; intros; congruence].
  destruct (uv_timer (self w)) as [p|] eqn:Hp; run_monad;
    [|cbn [fst snd]; repeat split; intros; congruence].
  destruct (heap w !! p) as [[c|]|]; run_monad;
    try solve [cbn [fst snd]; repeat split; intros; congruence].
  destruct (stop_r env =? 0) eqn:Hr; run_monad; rewrite ?Hr; cbn [negb]; run_monad.
  - apply Z.eqb_eq in Hr. repeat split; intros; congruence.
  - destruct (loop (self w)); run_monad; repeat split; intros; congruence.
Qed.

(** X7. [again] never writes to the Timer object: all its fields, and
    with them the [active] flag, are as before in every outcome, as are
    the heap, the reference counts and the close queue. *)
Theorem again_never_writes_the_timer (env : uv_env) (w : World) :
  self (world_after (Timer_func_again env) w) = self w /\
  heap (world_after (Timer_func_again env) w) = heap w /\
  ob_refcnt (world_after (Timer_func_again env) w) = ob_refcnt w /\
  closing (world_after (Timer_func_again env) w) = closing w.
Proof.
  destruct (Timer_func_again_frame env w) as (Hh & Hr & Hq & Hs).
  repeat split; assumption.
Qed.

(** X8. On an inactive timer a successful [again] has re-armed the
    handle in the loop, yet the object still counts as inactive: the next
    [stop] is refused with TimerNotActiveError and cancels nothing. *)
Theorem stop_after_again_is_refused (env env' : uv_env) (w : World) :
  active (self w) = false ->
  result_of (Timer_func_again env) w = Ret tt ->
  result_of (Timer_func_again env ;;; Timer_func_stop env') w = Raise TimerNotActiveError /\
  trace (world_after (Timer_func_again env ;;; Timer_func_stop env') w) =
    trace (world_after (Timer_func_again env) w).
Proof.
  intros Ha Hret.
  destruct (Timer_func_again_frame env w) as (_ & _ & _ & Hs).
  unfold result_of, world_after, bind in *.
  destruct (Timer_func_again env w) as [o w1]. cbn [fst snd] in *. subst o.
  rewrite Timer_func_stop_not_active by (rewrite Hs; exact Ha). split; reflexivity.
Qed.

Lemma stop_after_again_is_refused_witness :
  result_of (Timer_func_again env_ok ;;; Timer_func_stop env_ok)
    (world_after (Timer_func_stop env_ok) armed_timer) = Raise TimerNotActiveError.
Proof.
  apply (stop_after_again_is_refused env_ok env_ok
           (world_after (Timer_func_stop env_ok) armed_timer)); reflexivity.
Defined.

(** X9. [close] never raises: it returns normally, or faults on a handle
    slot that points to freed memory. In every outcome [closed] is set and
    nothing else of the Timer, no block and no reference count has
    changed; at most one request, for the block in the slot, has joined
    the close queue. *)
Theorem close_never_raises (w : World) (e : exn) :
  result_of Timer_func_close w <> Raise e /\
  self (world_after Timer_func_close w) = with_closed true (self w) /\
  heap (world_after Timer_func_close w) = heap w /\
  ob_refcnt (world_after Timer_func_close w) = ob_refcnt w /\
  (closing (world_after Timer_func_close w) = closing w \/
   exists p, uv_timer (self w) = Some p /\
     closing (world_after Timer_func_close w) = (closing w ++ [p])%list).
Proof.
  destruct (Timer_func_close_frame w) as (Hh & Hr & Hs & Hq & Hraise).
  split; [apply Hraise|]. repeat (split; [assumption|]).
  destruct Hq as [Hq|(p & c & Hp & _ & Hq)]; [now left|right; eauto].
Qed.

(** X10. [close] on a timer whose block is live and points back to the
    Timer, with nothing pending, followed by the loop confirming the
    close: the block is requested once and freed once, the Timer loses
    exactly one reference, and apart from [closed] its fields are as
    before. (The count is assumed not to be 1, so that the Timer outlives
    the release.) *)
Theorem close_then_confirm_releases_once (w : World) (p : ptr) (c : uv_timer_t) :
  uv_timer (self w) = Some p ->
  heap w !! p = Some (Live c) ->
  handle_data c = Some Timer_self ->
  closing w = [] ->
  refcnt w Timer_self <> 1 ->
  result_of (Timer_func_close ;;; uv_run_closing) w = Ret tt /\
  refcnt (world_after (Timer_func_close ;;; uv_run_closing) w) Timer_self =
    refcnt w Timer_self - 1 /\
  heap (world_after (Timer_func_close ;;; uv_run_closing) w) = <[p := Freed]> (heap w) /\
  closing (world_after (Timer_func_close ;;; uv_run_closing) w) = [] /\
  trace (world_after (Timer_func_close ;;; uv_run_closing) w) =
    (trace w ++ [Ev_uv_close p; Ev_PyMem_Free p])%list /\
  self (world_after (Timer_func_close ;;; uv_run_closing) w) = with_closed true (self w).
Proof.
  intros Hp Hl Hd Hq Hn.
  pose proof (lookup_lt_Some _ _ _ Hl) as Hlt.
  assert (Hrun : (Timer_func_close ;;; uv_run_closing) w =
    (Ret tt,
     log (Ev_PyMem_Free p)
       (set_heap (<[p := Freed]> (heap w))
          (add_ref (-1) Timer_self
             (set_closing []
                (set_scheduled (unschedule p (scheduled w))
                   (log (Ev_uv_close p) (set_self (with_closed true (self w)) w)))))))).
  { unfold bind at 1. rewrite (Timer_func_close_requests w p c Hp Hl).
    rewrite uv_run_closing_unfold. cbn [closing log set_closing set_scheduled]. rewrite Hq.
    cbn [app]. unfold run_close_callbacks. cbn [Reentrant.run_close_callbacks].
    unfold on_timer_close, Reentrant.on_timer_close, deref, Py_DECREF, Reentrant.Py_DECREF,
      Reentrant.Py_DECREF_object, Py_DECREF_counter, store, PyMem_Free, deref.
    run_monad. rewrite Hl. run_monad. rewrite Hd. run_monad.
    change (ptr_eqb Timer_self Timer_self) with true. cbn [andb].
    match goal with
    | |- context [refcnt ?W Timer_self =? 0] =>
        replace (refcnt W Timer_self =? 0) with false
    end.
    2:{ symmetry. apply Z.eqb_neq. rewrite refcnt_add_ref_same.
        unfold refcnt in *. cbn [ob_refcnt log set_closing set_scheduled set_self]. lia. }
    run_monad. rewrite Hl. run_monad.
    rewrite list_lookup_insert_eq by exact Hlt. run_monad.
    rewrite list_insert_insert_eq. reflexivity. }
  unfold result_of, world_after. rewrite Hrun.
  cbn [fst snd log set_heap set_closing set_scheduled set_self add_ref set_refcnt
       heap closing trace self].
  split; [reflexivity|]. split.
  { unfold refcnt.
    cbn [ob_refcnt log set_heap set_closing set_scheduled set_self add_ref set_refcnt].
    rewrite lookup_insert_eq. reflexivity. }
  repeat split. now rewrite <- app_assoc.
Qed.

Lemma close_then_confirm_releases_once_witness :
  result_of (Timer_func_close ;;; uv_run_closing) armed_timer = Ret tt /\
  refcnt (world_after (Timer_func_close ;;; uv_run_closing) armed_timer) Timer_self =
    refcnt armed_timer Timer_self - 1.
Proof.
  assert (Hn : refcnt armed_timer Timer_self <> 1) by (vm_compute; discriminate).
  destruct (close_then_confirm_releases_once armed_timer 0%nat
              (mkHandle (Some Timer_self) 0) eq_refl eq_refl eq_refl eq_refl Hn)
    as (H1 & H2 & _).
  split; [exact H1|exact H2].
Defined.

(** X11. A firing whose callback is a real callable: the user's code is
    called once, with the stored callback and data; whether it returns a
    value or raises, the trampoline itself returns normally and the
    temporary hold on the Timer is given back. A raised failure is
    reported as unraisable against the callback the Timer holds after the
    call, which is not the one that was called if the user's code has
    replaced it. (The count after the call is assumed not to be 1, so
    that the Timer outlives the firing.) *)
Theorem callback_failure_is_contained
    (call : PyObject -> PyObject -> option PyObject -> M (option PyObject))
    (w w2 : World) (p : ptr) (c : uv_timer_t) (f : PyObject) (res : option PyObject) :
  heap w !! p = Some (Live c) ->
  handle_data c = Some Timer_self ->
  callback (self w) = Some f ->
  ptr_eqb f Py_None = false ->
  call f Timer_self (data (self w))
       (log (Ev_call f (data (self w))) (add_ref 1 Timer_self w)) = (Ret res, w2) ->
  refcnt (match res with
          | Some r => add_ref (-1) r w2
          | None => log (Ev_unraisable (callback (self w2))) w2
          end) Timer_self <> 1 ->
  on_timer_callback call (Some p) 0 w =
    (Ret tt,
     add_ref (-1) Timer_self
       (match res with
        | Some r => add_ref (-1) r w2
        | None => log (Ev_unraisable (callback (self w2))) w2
        end)).
Proof.
  intros Hl Hd Hcb Hnone Hcall Hn.
  unfold on_timer_callback, Reentrant.on_timer_callback, deref, Py_INCREF,
    Reentrant.Py_DECREF, Reentrant.Py_DECREF_object, Py_DECREF_counter.
  change (0 =? 0) with true. cbn [negb].
  run_monad. rewrite Hl. run_monad. rewrite Hd. run_monad. rewrite Hcb, Hnone.
  cbn [negb]. run_monad. rewrite Hcall.
  destruct res as [r|]; run_monad.
  all: match goal with
       | |- context [refcnt (add_ref (-1) Timer_self ?W) Timer_self =? 0] =>
           replace (refcnt (add_ref (-1) Timer_self W) Timer_self =? 0) with false
             by (symmetry; apply Z.eqb_neq; rewrite refcnt_add_ref_same; lia)
       end.
  all: reflexivity.
Qed.

(** The user's code of the example: it puts another callback in place,
    as [stop] followed by [start] would, and raises. *)
Lemma callback_failure_is_contained_witness :
  let call := fun _ _ _ => assign (with_callback (Some cb2)) ;;; ret None in
  let w2 := set_self (with_callback (Some cb2) (self armed_timer))
              (log (Ev_call cb1 (Some data1)) (add_ref 1 Timer_self armed_timer)) in
  on_timer_callback call (Some 0%nat) 0 armed_timer =
    (Ret tt, add_ref (-1) Timer_self (log (Ev_unraisable (Some cb2)) w2)).
Proof.
  intros call w2.
  assert (Hn : refcnt (log (Ev_unraisable (callback (self w2))) w2) Timer_self <> 1)
    by (vm_compute; discriminate).
  exact (callback_failure_is_contained call armed_timer w2 0%nat
           (mkHandle (Some Timer_self) 0) cb1 None
           eq_refl eq_refl eq_refl eq_refl eq_refl Hn).
Defined.

(** X12. [Timer_tp_clear] is idempotent: a second clearing finds the
    three fields NULL and changes nothing, no count is lowered twice. *)
Theorem tp_clear_is_idempotent (w : World) :
  (Timer_tp_clear ;;; Timer_tp_clear) w = Timer_tp_clear w.
Proof.
  unfold Timer_tp_clear, Reentrant.Timer_tp_clear, Py_CLEAR, Reentrant.Py_CLEAR, Py_XDECREF,
    Reentrant.Py_XDECREF, Reentrant.Py_DECREF_object, Py_DECREF_counter.
  destruct w as [[l cb d u i a c] m h q sc tr].
  destruct l, cb, d; run_monad; reflexivity.
Qed.

(** X13. Destroying the Timer object clears its three object fields and
    gives its memory back, and that is all: the handle slot, the heap of
    native blocks, the close queue and the lifecycle flags are untouched,
    and nothing is asked of libuv. *)
Theorem dealloc_leaves_the_native_side (w : World) :
  result_of Timer_tp_dealloc w = Ret tt /\
  heap (world_after Timer_tp_dealloc w) = heap w /\
  closing (world_after Timer_tp_dealloc w) = closing w /\
  trace (world_after Timer_tp_dealloc w) = (trace w ++ [Ev_tp_free])%list /\
  uv_timer (self (world_after Timer_tp_dealloc w)) = uv_timer (self w) /\
  active (self (world_after Timer_tp_dealloc w)) = active (self w) /\
  closed (self (world_after Timer_tp_dealloc w)) = closed (self w) /\
  referents (self (world_after Timer_tp_dealloc w)) = [].
Proof.
  destruct (Timer_tp_dealloc_frame w)
    as (w' & Heq & Hh & Hq & Ht & Hu & Ha & Hc & _ & Hd & Hcb & Hl).
  unfold result_of, world_after, referents. rewrite Heq. cbn [fst snd].
  rewrite Hd, Hcb, Hl. repeat split; assumption.
Qed.

(** X14. The traversal reports the data, the callback and the loop, in
    this order, skips the fields that are NULL and stops at the first
    non-zero answer of the visitor, which it returns; otherwise it returns
    zero. *)
Theorem traverse_reports_referents_in_order (f : PyObject -> Z) (w : World) :
  Timer_tp_traverse (fun o => ret (f o)) w =
    (Ret (first_nonzero f (referents (self w))), w).
Proof.
  unfold Timer_tp_traverse, Py_VISIT, referents.
  destruct w as [[l cb d u i a c] m h q sc tr].
  destruct l as [l|], cb as [cb|], d as [d|];
    simpl; run_monad;
    repeat match goal with
           | |- context [f ?o =? 0] => destruct (f o =? 0); cbn [negb]; run_monad
           end; reflexivity.
Qed.

(** X15. After a clearing the traversal has nothing to report: the
    visitor is not called at all, whatever it is. *)
Theorem traverse_after_clear_visits_nothing (visit : PyObject -> M Z) (w : World) :
  (Timer_tp_clear ;;; Timer_tp_traverse visit) w = (Ret 0, world_after Timer_tp_clear w).
Proof.
  unfold world_after, Timer_tp_traverse, Py_VISIT, Timer_tp_clear, Reentrant.Timer_tp_clear,
    Py_CLEAR, Reentrant.Py_CLEAR,
    Py_XDECREF, Reentrant.Py_XDECREF, Reentrant.Py_DECREF_object, Py_DECREF_counter.
  destruct w as [[l cb d u i a c] m h q sc tr].
  destruct l, cb, d; run_monad; reflexivity.
Qed.


Lemma Timer_repeat_set_live (x : double) (ms : Z) (w : World) (p : ptr) (c : uv_timer_t) :
  closed (self w) = false ->
  uv_timer (self w) = Some p ->
  heap w !! p = Some (Live c) ->
  double_lt x d_zero = false ->
  int64_of_double (double_mul x d_1000) = Some ms ->
  Timer_repeat_set (Some (PyFloat x)) w =
    (Ret tt, set_heap (<[p := Live (mkHandle (handle_data c) ms)]> (heap w)) w).
Proof.
  intros Hc Hp Hl Hlt Hms.
  unfold Timer_repeat_set, uv_timer_set_repeat, to_milliseconds, deref, store,
    PyFloat_AsDouble.
  run_monad. rewrite Hc, Hp, Hlt, Hms.
  destruct (double_eq x d_minus_1); run_monad; rewrite Hl; reflexivity.
Qed.

(** X16. The [repeat] setter checks its value before it looks at the
    handle: on an open timer, whether or not a handle exists, deleting the
    attribute, a value that is not a number and a negative number are each
    refused with an exception, and nothing at all has changed. *)
Theorem repeat_set_rejects_bad_values (w : World) :
  closed (self w) = false ->
  Timer_repeat_set None w = (Raise (TypeError "cannot delete attribute"), w) /\
  (forall o, exists e, Timer_repeat_set (Some (PyNotNumber o)) w = (Raise e, w)) /\
  (forall d, double_lt d d_zero = true ->
     Timer_repeat_set (Some (PyFloat d)) w =
       (Raise (ValueError "a positive float or 0.0 is required"), w)).
Proof.
  intros Hc. unfold Timer_repeat_set, PyFloat_AsDouble. run_monad. rewrite Hc.
  split; [reflexivity|]. split.
  - intros o. eexists. reflexivity.
  - intros d Hd. rewrite Hd. destruct (double_eq d d_minus_1); reflexivity.
Qed.

Lemma repeat_set_rejects_bad_values_witness :
  Timer_repeat_set None fresh_timer =
    (Raise (TypeError "cannot delete attribute"), fresh_timer) /\
  Timer_repeat_set (Some (PyFloat d_minus_1)) armed_timer =
    (Raise (ValueError "a positive float or 0.0 is required"), armed_timer).
Proof.
  split.
  - apply (repeat_set_rejects_bad_values fresh_timer eq_refl).
  - apply (repeat_set_rejects_bad_values armed_timer eq_refl). reflexivity.
Defined.



(** X18. Of two writes to [repeat] the last one is read back, and the
    writes leave the back-pointer of the handle and every other block
    alone. *)
Theorem repeat_last_write_wins (x y : double) (mx my : Z) (w : World)
    (p : ptr) (c : uv_timer_t) :
  closed (self w) = false ->
  uv_timer (self w) = Some p ->
  heap w !! p = Some (Live c) ->
  double_lt x d_zero = false ->
  double_lt y d_zero = false ->
  int64_of_double (double_mul x d_1000) = Some mx ->
  int64_of_double (double_mul y d_1000) = Some my ->
  (Timer_repeat_set (Some (PyFloat x)) ;;; Timer_repeat_set (Some (PyFloat y)) ;;;
   Timer_repeat_get) w =
    (Ret (double_div (double_of_int64 my) d_1000),
     set_heap (<[p := Live (mkHandle (handle_data c) my)]> (heap w)) w).
Proof.
  intros Hc Hp Hl Hx Hy Hmx Hmy.
  pose proof (lookup_lt_Some _ _ _ Hl) as Hlt.
  unfold bind at 1. rewrite (Timer_repeat_set_live x mx w p c Hc Hp Hl Hx Hmx).
  rewrite (repeat_set_then_get y my _ p (mkHandle (handle_data c) mx));
    [|exact Hc|exact Hp|cbn [heap set_heap]; now apply list_lookup_insert_eq|exact Hy|exact Hmy].
  cbn [heap set_heap handle_data]. rewrite list_insert_insert_eq.
  reflexivity.
Qed.

Lemma repeat_last_write_wins_witness :
  result_of (Timer_repeat_set (Some (PyFloat d_1000)) ;;;
             Timer_repeat_set (Some (PyFloat d_1_5)) ;;; Timer_repeat_get) armed_timer =
    Ret (double_div (double_of_int64 1500) d_1000).
Proof.
  unfold result_of.
  rewrite (repeat_last_write_wins d_1000 d_1_5 1000000 1500 armed_timer 0%nat
             (mkHandle (Some Timer_self) 0)
             eq_refl eq_refl eq_refl eq_refl eq_refl eq_refl eq_refl).
  reflexivity.
Defined.

(** X19. A Timer is initialised once: on an object not yet initialised
    [__init__] with a loop succeeds and leaves an open, idle timer with no
    handle, holding the loop; any further [__init__] raises and changes
    nothing. *)
Theorem init_only_once (l : PyObject) (args : option PyObject) (w : World) :
  initialized (self w) = false ->
  result_of (Timer_tp_init (Some l)) w = Ret tt /\
  loop (self (world_after (Timer_tp_init (Some l)) w)) = Some l /\
  initialized (self (world_after (Timer_tp_init (Some l)) w)) = true /\
  active (self (world_after (Timer_tp_init (Some l)) w)) = false /\
  closed (self (world_after (Timer_tp_init (Some l)) w)) = false /\
  uv_timer (self (world_after (Timer_tp_init (Some l)) w)) = None /\
  Timer_tp_init args (world_after (Timer_tp_init (Some l)) w) =
    (Raise (TimerError "Object already initialized"),
     world_after (Timer_tp_init (Some l)) w).
Proof.
  intros Hi.
  assert (Hdone : initialized (self (world_after (Timer_tp_init (Some l)) w)) = true /\
                  loop (self (world_after (Timer_tp_init (Some l)) w)) = Some l).
  { unfold world_after, Timer_tp_init, Reentrant.Timer_tp_init, Py_INCREF, Py_XDECREF,
    Reentrant.Py_XDECREF, Reentrant.Py_DECREF_object, Py_DECREF_counter.
    run_monad. rewrite Hi. run_monad. destruct (loop (self w)); run_monad; split; reflexivity. }
  destruct Hdone as [Hinit Hloop].
  destruct (Timer_tp_init_never_started l w Hi) as (H1 & H2 & H3 & H4 & _).
  repeat (split; [assumption|]).
  now apply Timer_tp_init_twice.
Qed.

Lemma init_only_once_witness :
  result_of (Timer_tp_init (Some a_loop)) Timer_tp_new = Ret tt /\
  Timer_tp_init (Some a_loop) fresh_timer =
    (Raise (TimerError "Object already initialized"), fresh_timer).
Proof.
  destruct (init_only_once a_loop (Some a_loop) Timer_tp_new eq_refl)
    as (H1 & _ & _ & _ & _ & _ & H7).
  split; [exact H1|exact H7].
Defined.

Lemma call_method_closed (c : method) (w : World) :
  initialized (self w) = true ->
  closed (self w) = true ->
  initialized (self (call_method c w)) = true /\
  closed (self (call_method c w)) = true /\
  uv_timer (self (call_method c w)) = uv_timer (self w) /\
  length (heap (call_method c w)) = length (heap w).
Proof.
  intros Hi Hc.
  destruct c as [args|env args|env|env| | |value|]; rewrite call_method_eq.
  - unfold world_after. rewrite Timer_tp_init_twice by exact Hi. cbn [snd]. auto.
  - unfold world_after. rewrite Timer_func_start_closed by exact Hc. cbn [snd]. auto.
  - destruct (Timer_func_stop_frame env w) as [(Hh & _ & _ & Hs)|(Hh & _ & _ & Hs & _)];
      rewrite Hh, Hs; auto.
  - unfold world_after. rewrite Timer_func_again_closed by exact Hc. cbn [snd]. auto.
  - destruct (Timer_func_close_frame w) as (Hh & _ & Hs & _).
    rewrite Hh, Hs. auto.
  - rewrite Timer_repeat_get_frame. auto.
  - unfold world_after. rewrite Timer_repeat_set_closed by exact Hc. cbn [snd]. auto.
  - unfold world_after. rewrite uv_run_closing_unfold.
    destruct (run_close_callbacks_frame (closing w) (set_closing [] w))
      as (Hu & _ & Hcl & Hin & Hlen & _).
    unfold world_after in *. rewrite Hu, Hcl, Hin, Hlen. auto.
Qed.

(** X20. Closed is terminal: once an initialised timer has [closed] set,
    no sequence of method calls and close confirmations clears the flag,
    re-initialises the object, puts another block in the handle slot or
    allocates a block. *)
Theorem closed_is_terminal (cs : list method) (w : World) :
  initialized (self w) = true ->
  closed (self w) = true ->
  initialized (self (call_methods cs w)) = true /\
  closed (self (call_methods cs w)) = true /\
  uv_timer (self (call_methods cs w)) = uv_timer (self w) /\
  length (heap (call_methods cs w)) = length (heap w).
Proof.
  revert w. induction cs as [|c cs IH]; intros w Hi Hc; [|rewrite call_methods_cons].
  - auto.
  - destruct (call_method_closed c w Hi Hc) as (Hi' & Hc' & Hu & Hlen).
    destruct (IH (call_method c w) Hi' Hc') as (H1 & H2 & H3 & H4).
    unfold call_methods, Reentrant.call_methods in *. repeat split; congruence.
Qed.

Lemma closed_is_terminal_witness :
  closed (self (call_methods
                  [Call_start env_ok (Some (mkArgs cb2 d_zero d_zero None));
                   Call_stop env_ok; Call_init (Some a_loop); Loop_confirms_close]
                  (world_after Timer_func_close armed_timer))) = true.
Proof.
  apply (closed_is_terminal
           [Call_start env_ok (Some (mkArgs cb2 d_zero d_zero None));
            Call_stop env_ok; Call_init (Some a_loop); Loop_confirms_close]
           (world_after Timer_func_close armed_timer)); reflexivity.
Defined.

(** ** Tame destructors *)




Section TameDestructors.

Variable dealloc : PyObject -> M unit.
Hypothesis dealloc_tame : tame dealloc.























End TameDestructors.







(** X25. A destructor that is not tame. The callable [cb1] has a
    [__del__] that calls [start]. After start(cb1); stop(), a [start]
    with a negative timeout releases [cb1] when it replaces the stored
    callback; the destructor runs inside that release and starts the
    timer; the outer call then fails on its timeout and its error label
    sets the handle slot to NULL. The timer is left active with no handle,
    and the next [stop] hands NULL to [uv_timer_stop]. *)
Theorem restarting_destructor_breaks_stop :
  let del := restarting cb1 (mkArgs cb3 d_zero d_zero None) in
  let w := Reentrant.call_methods del
             [Call_init (Some a_loop);
              Call_start env_ok (Some (mkArgs cb1 d_zero d_zero (Some data1)));
              Call_stop env_ok;
              Call_start env_ok (Some (mkArgs cb2 d_minus_1 d_zero None))]
             Timer_tp_new in
  active (self w) = true /\
  uv_timer (self w) = None /\
  callback (self w) = Some cb3 /\
  scheduled w = [1%nat] /\
  result_of (Timer_func_stop env_ok) w = Fault NullHandle /\
  ~ tame del.
Proof.
  cbv zeta. split; [vm_compute; reflexivity|]. split; [vm_compute; reflexivity|].
  split; [vm_compute; reflexivity|]. split; [vm_compute; reflexivity|].
  split; [vm_compute; reflexivity|].
  intros Htame. destruct (Htame cb1 fresh_timer) as [Hs _].
  vm_compute in Hs. discriminate Hs.
Qed.

(** ** Gentle destructors *)

Lemma slots_in_heap_frame (w w' : World) :
  uv_timer (self w') = uv_timer (self w) ->
  closing w' = closing w ->
  (length (heap w) <= length (heap w'))%nat ->
  slots_in_heap w -> slots_in_heap w'.
Proof.
  intros Hu Hq Hlen (Hslot & Hqueue).
  unfold slots_in_heap. rewrite Hu, Hq. split.
  - intros p Hp. specialize (Hslot p Hp). lia.
  - intros p Hp. specialize (Hqueue p Hp). lia.
Qed.

Lemma slots_in_heap_idle (w w' : World) :
  uv_timer (self w') = None ->
  closing w' = closing w ->
  (length (heap w) <= length (heap w'))%nat ->
  slots_in_heap w -> slots_in_heap w'.
Proof.
  intros Hu Hq Hlen (_ & Hqueue).
  unfold slots_in_heap. rewrite Hu, Hq. split; [discriminate|].
  intros p Hp. specialize (Hqueue p Hp). lia.
Qed.

Lemma slots_in_heap_armed (w w' : World) (p : ptr) :
  uv_timer (self w') = Some p ->
  (p < length (heap w'))%nat ->
  closing w' = closing w ->
  (length (heap w) <= length (heap w'))%nat ->
  slots_in_heap w -> slots_in_heap w'.
Proof.
  intros Hu Hp Hq Hlen (_ & Hqueue).
  unfold slots_in_heap. rewrite Hu, Hq. split.
  - intros q [= <-]. exact Hp.
  - intros q Hin. specialize (Hqueue q Hin). lia.
Qed.

Section GentleDestructors.

Variable dealloc : PyObject -> M unit.
Hypothesis dealloc_gentle : gentle dealloc.

Ltac slots_side :=
  cbn [fst snd self ob_refcnt heap closing scheduled trace
       set_self set_refcnt set_heap set_closing set_scheduled log add_ref
       loop callback data uv_timer initialized active closed
       with_loop with_callback with_data with_uv_timer
       with_initialized with_active with_closed];
  rewrite ?length_insert, ?length_app; cbn [length];
  first [reflexivity | assumption | lia].

Ltac slots_from H :=
  first [exact H
        |refine (slots_in_heap_frame _ _ _ _ _ H); slots_side
        |refine (slots_in_heap_idle _ _ _ _ _ H); slots_side
        |refine (slots_in_heap_armed _ _ _ _ _ _ _ H); slots_side].

Lemma Py_DECREF_object_gentle (o : PyObject) (w : World) :
  slots_in_heap w ->
  slots_in_heap (snd (Reentrant.Py_DECREF_object dealloc o w)).
Proof.
  intros Hw. unfold Reentrant.Py_DECREF_object, Py_DECREF_counter. run_monad.
  destruct (refcnt (add_ref (-1) o w) o =? 0); [|exact Hw].
  pose proof (dealloc_gentle o (add_ref (-1) o w) Hw) as H1.
  destruct (dealloc o (add_ref (-1) o w)) as [[[]|e|f] w1]; exact H1.
Qed.

Lemma Py_XDECREF_gentle (o : option PyObject) (w : World) :
  slots_in_heap w ->
  slots_in_heap (snd (Reentrant.Py_XDECREF dealloc o w)).
Proof.
  destruct o as [o|]; [apply Py_DECREF_object_gentle|]. exact id.
Qed.

(** Running a release: the world after it is a new one, of which only
    the invariant is known. [Hprev] is the invariant before. *)
Ltac release Hprev :=
  lazymatch goal with
  | |- context [Reentrant.Py_XDECREF dealloc ?o ?W] =>
      let Hn := fresh "Hw" in
      let W1 := fresh "w" in
      assert (Hn : slots_in_heap (snd (Reentrant.Py_XDECREF dealloc o W)))
        by (apply Py_XDECREF_gentle; slots_from Hprev);
      destruct (Reentrant.Py_XDECREF dealloc o W) as [[[]|?|?] W1];
      cbn [snd] in Hn; run_monad; try exact Hn
  | |- context [Reentrant.Py_DECREF_object dealloc ?o ?W] =>
      let Hn := fresh "Hw" in
      let W1 := fresh "w" in
      assert (Hn : slots_in_heap (snd (Reentrant.Py_DECREF_object dealloc o W)))
        by (apply Py_DECREF_object_gentle; slots_from Hprev);
      destruct (Reentrant.Py_DECREF_object dealloc o W) as [[[]|?|?] W1];
      cbn [snd] in Hn; run_monad; try exact Hn
  end.

Lemma Timer_tp_init_gentle (args : option PyObject) (w : World) :
  slots_in_heap w ->
  slots_in_heap (world_after (Reentrant.Timer_tp_init dealloc args) w).
Proof.
  intros Hw. unfold world_after, Reentrant.Timer_tp_init, Py_INCREF. run_monad.
  destruct (initialized (self w)); [exact Hw|].
  destruct args as [l|]; [|exact Hw]. run_monad.
  release Hw. slots_from Hw0.
Qed.

Lemma start_error_gentle {A} (h : option ptr) (cb d : PyObject) (e : exn) (w : World) :
  slots_in_heap w ->
  slots_in_heap (snd (@Reentrant.start_error dealloc A h cb d e w)).
Proof.
  intros Hw. unfold Reentrant.start_error, PyMem_Free, store, deref. run_monad.
  destruct h as [p|]; run_monad.
  - destruct (heap w !! p) as [[c|]|] eqn:Hl; run_monad; try exact Hw.
    rewrite list_lookup_insert_eq by (eapply lookup_lt_Some; exact Hl). run_monad.
    release Hw. release Hw0. slots_from Hw1.
  - release Hw. release Hw0. slots_from Hw1.
Qed.

Ltac error_exit H := apply start_error_gentle; slots_from H.

Lemma Timer_func_start_gentle (env : uv_env) (args : option start_args) (w : World) :
  slots_in_heap w ->
  slots_in_heap (world_after (Reentrant.Timer_func_start dealloc env args) w).
Proof.
  intros Hw. unfold world_after, Reentrant.Timer_func_start, Py_INCREF. run_monad.
  destruct (closed (self w)); [exact Hw|].
  destruct (active (self w)); [exact Hw|].
  destruct args as [a|]; [|exact Hw].
  destruct (PyCallable_Check (arg_callback a)); cbn [negb]; [|exact Hw].
  run_monad. release Hw.
  destruct (double_lt (arg_timeout a) d_zero); [error_exit Hw0|].
  destruct (double_lt (arg_repeat a) d_zero); [error_exit Hw0|].
  run_monad. release Hw0.
  unfold PyMem_Malloc; destruct (malloc_ok env); run_monad; [|error_exit Hw1].
  unfold SELF_LOOP; run_monad.
  destruct (loop (self w1)) as [lp|] eqn:Hlp; run_monad; [|slots_from Hw1].
  unfold uv_timer_init, deref; run_monad.
  rewrite list_lookup_middle by reflexivity; run_monad.
  destruct (init_r env =? 0); cbn [negb]; run_monad.
  2:{ rewrite ?Hlp; run_monad. error_exit Hw1. }
  rewrite list_lookup_middle by reflexivity; run_monad.
  unfold store, to_milliseconds; run_monad.
  destruct (int64_of_double (double_mul (arg_timeout a) d_1000)); run_monad;
    [|slots_from Hw1].
  destruct (int64_of_double (double_mul (arg_repeat a) d_1000)); run_monad;
    [|slots_from Hw1].
  unfold uv_timer_start, deref; run_monad.
  rewrite lookup_fresh_block; run_monad.
  destruct (start_r env =? 0) eqn:Hs'; unfold store; run_monad;
    rewrite ?Hs'; cbn [negb]; run_monad.
  - slots_from Hw1.
  - rewrite ?Hlp; run_monad. error_exit Hw1.
Qed.

Lemma Py_CLEAR_gentle (get : Timer -> option PyObject)
    (set : option PyObject -> Timer -> Timer) (w : World) :
  (forall t, uv_timer (set None t) = uv_timer t) ->
  slots_in_heap w ->
  slots_in_heap (snd (Reentrant.Py_CLEAR dealloc get set w)).
Proof.
  intros Hset Hw. unfold Reentrant.Py_CLEAR. run_monad.
  assert (Hw1 : slots_in_heap (snd (Reentrant.Py_XDECREF dealloc (get (self w))
                                      (set_self (set None (self w)) w)))).
  { apply Py_XDECREF_gentle. refine (slots_in_heap_frame _ _ _ _ _ Hw);
      cbn [self set_self heap closing]; solve [apply Hset|reflexivity]. }
  destruct (Reentrant.Py_XDECREF dealloc (get (self w)) (set_self (set None (self w)) w))
    as [[[]|e|f] w1]; exact Hw1.
Qed.

Lemma Timer_tp_dealloc_gentle (w : World) :
  slots_in_heap w ->
  slots_in_heap (snd (Reentrant.Timer_tp_dealloc dealloc w)).
Proof.
  intros Hw. unfold Reentrant.Timer_tp_dealloc, Reentrant.Timer_tp_clear.
  pose proof (Py_CLEAR_gentle data with_data w (fun t => eq_refl) Hw) as H1.
  unfold bind at 1 2.
  destruct (Reentrant.Py_CLEAR dealloc data with_data w) as [[[]|e|f] w1];
    cbn [snd] in *; try exact H1.
  pose proof (Py_CLEAR_gentle callback with_callback w1 (fun t => eq_refl) H1) as H2.
  unfold bind at 1.
  destruct (Reentrant.Py_CLEAR dealloc callback with_callback w1) as [[[]|e|f] w2];
    cbn [snd] in *; try exact H2.
  pose proof (Py_CLEAR_gentle loop with_loop w2 (fun t => eq_refl) H2) as H3.
  destruct (Reentrant.Py_CLEAR dealloc loop with_loop w2) as [[[]|e|f] w3];
    cbn [snd] in *; exact H3.
Qed.

Lemma Py_DECREF_gentle (o : PyObject) (w : World) :
  slots_in_heap w ->
  slots_in_heap (snd (Reentrant.Py_DECREF dealloc o w)).
Proof.
  intros Hw. unfold Reentrant.Py_DECREF, Py_DECREF_counter. run_monad.
  destruct (refcnt (add_ref (-1) o w) o =? 0); [|exact Hw].
  destruct (ptr_eqb o Timer_self).
  - apply Timer_tp_dealloc_gentle. exact Hw.
  - apply dealloc_gentle. exact Hw.
Qed.

Lemma on_timer_close_gentle (h : option ptr) (w : World) :
  slots_in_heap w ->
  slots_in_heap (snd (Reentrant.on_timer_close dealloc h w)).
Proof.
  intros Hw. unfold Reentrant.on_timer_close, deref. run_monad.
  destruct h as [p|]; run_monad; [|exact Hw].
  destruct (heap w !! p) as [[c|]|]; run_monad; try exact Hw.
  destruct (handle_data c) as [obj|]; run_monad; [|exact Hw].
  pose proof (Py_DECREF_gentle obj w Hw) as H1.
  destruct (Reentrant.Py_DECREF dealloc obj w) as [[[]|e|f] w1]; cbn [snd] in H1;
    try exact H1.
  unfold store, PyMem_Free, deref. run_monad.
  destruct (heap w1 !! p) as [[c1|]|]; run_monad; try exact H1.
  destruct (<[p:=Live (mkHandle None (handle_repeat c1))]> (heap w1) !! p) as [[c'|]|];
    run_monad; slots_from H1.
Qed.

Lemma run_close_callbacks_gentle (q : list ptr) :
  forall w, slots_in_heap w ->
  slots_in_heap (snd (Reentrant.run_close_callbacks dealloc q w)).
Proof.
  induction q as [|p q IH]; intros w Hw; cbn [Reentrant.run_close_callbacks].
  - exact Hw.
  - pose proof (on_timer_close_gentle (Some p) w Hw) as H1.
    unfold bind.
    destruct (Reentrant.on_timer_close dealloc (Some p) w) as [[[]|e|f] w1];
      cbn [snd] in H1; try exact H1.
    apply IH. exact H1.
Qed.

Lemma uv_run_closing_gentle (w : World) :
  slots_in_heap w ->
  slots_in_heap (snd (Reentrant.uv_run_closing dealloc w)).
Proof.
  intros Hw. unfold Reentrant.uv_run_closing. run_monad.
  apply run_close_callbacks_gentle.
  destruct Hw as (Hslot & _). split; [exact Hslot|intros p []].
Qed.

Lemma call_method_gentle (c : method) (w : World) :
  slots_in_heap w -> slots_in_heap (Reentrant.call_method dealloc c w).
Proof.
  intros Hw.
  destruct c as [args|env args|env|env| | |value|]; cbn [Reentrant.call_method].
  - now apply Timer_tp_init_gentle.
  - now apply Timer_func_start_gentle.
  - destruct (Timer_func_stop_frame env w) as [(Hh & _ & Hq & Hs)|(Hh & _ & Hq & Hs & _)];
      refine (slots_in_heap_frame _ _ _ _ _ Hw); rewrite ?Hh, ?Hq, ?Hs; reflexivity.
  - destruct (Timer_func_again_frame env w) as (Hh & _ & Hq & Hs).
    refine (slots_in_heap_frame _ _ _ _ _ Hw); rewrite ?Hh, ?Hq, ?Hs; reflexivity.
  - destruct (Timer_func_close_frame w) as (Hh & _ & Hs & Hq & _).
    destruct Hw as (Hslot & Hqueue). unfold slots_in_heap.
    rewrite Hh, Hs. cbn [with_closed uv_timer].
    split; [exact Hslot|].
    destruct Hq as [Hq|(p & c & Hp & Hl & Hq)]; rewrite Hq; [exact Hqueue|].
    intros q Hin. apply in_app_or in Hin as [Hin|[<-|[]]]; [now apply Hqueue|].
    now apply Hslot.
  - rewrite Timer_repeat_get_frame. exact Hw.
  - destruct (Timer_repeat_set_frame value w) as (Hs & _ & Hq & _ & Hlen & _).
    refine (slots_in_heap_frame _ _ _ _ _ Hw); rewrite ?Hs, ?Hq, ?Hlen; reflexivity.
  - now apply uv_run_closing_gentle.
Qed.

Lemma call_methods_gentle (cs : list method) :
  forall w, slots_in_heap w -> slots_in_heap (Reentrant.call_methods dealloc cs w).
Proof.
  induction cs as [|c cs IH]; intros w Hw.
  - exact Hw.
  - apply (IH (Reentrant.call_method dealloc c w)). now apply call_method_gentle.
Qed.

End GentleDestructors.

Lemma quiet_gentle : gentle quiet.
Proof. intros o w Hw. exact Hw. Qed.

(** A destructor that calls a method of the Timer is gentle when the
    destructors under it are. *)
Lemma method_call_gentle (dealloc : PyObject -> M unit) (c : method) :
  gentle dealloc ->
  gentle (fun _ w => (Ret tt, Reentrant.call_method dealloc c w)).
Proof.
  intros Hg o w Hw. cbn [snd]. now apply call_method_gentle.
Qed.

Lemma restarting_gentle (victim : PyObject) (a : start_args) :
  gentle (restarting victim a).
Proof.
  intros o w Hw. unfold restarting.
  destruct (ptr_eqb o victim); [|exact Hw].
  pose proof (Timer_func_start_gentle quiet quiet_gentle env_ok (Some a) w Hw) as H1.
  unfold run_del, world_after in *.
  change (Reentrant.Timer_func_start quiet) with Timer_func_start in H1.
  destruct (Timer_func_start env_ok (Some a) w) as [[[]|e|f] w1]; exact H1.
Qed.

Lemma Timer_tp_new_slots_in_heap : slots_in_heap Timer_tp_new.
Proof.
  unfold slots_in_heap, Timer_tp_new. cbn [self uv_timer closing heap].
  split; [discriminate|intros p []].
Qed.

(** X26. What survives destructors that re-enter the Timer. For every
    gentle behaviour of the destructors, which includes the restarting
    one of X25: starting from a new object, after any sequence of method
    calls and close confirmations, the handle slot and every pending
    close request name a block that came from the allocator; so [stop],
    [again], [close] and the [repeat] getter never follow a pointer to
    memory that was never allocated (they can still be handed NULL or a
    block that was freed). *)
Theorem slots_survive_reentrant_destructors (dealloc : PyObject -> M unit)
    (cs : list method) (env : uv_env) :
  gentle dealloc ->
  let w := Reentrant.call_methods dealloc cs Timer_tp_new in
  slots_in_heap w /\
  result_of (Timer_func_stop env) w <> Fault WildPointer /\
  result_of (Timer_func_again env) w <> Fault WildPointer /\
  result_of Timer_func_close w <> Fault WildPointer /\
  result_of Timer_repeat_get w <> Fault WildPointer.
Proof.
  intros Hg w.
  assert (Hinv : slots_in_heap w).
  { apply call_methods_gentle; [exact Hg|exact Timer_tp_new_slots_in_heap]. }
  split; [exact Hinv|]. destruct Hinv as (Hslot & _).
  assert (Hlive : forall p, uv_timer (self w) = Some p -> heap w !! p <> None).
  { intros p Hp Hnone. apply lookup_ge_None in Hnone. specialize (Hslot p Hp). lia. }
  clearbody w.
  repeat split.
  - unfold result_of, Timer_func_stop, uv_timer_stop, deref. run_monad.
    destruct (active (self w)); cbn [negb]; [|discriminate].
    destruct (uv_timer (self w)) as [p|] eqn:Hp; run_monad; [|discriminate].
    specialize (Hlive p eq_refl).
    destruct (heap w !! p) as [[c|]|]; run_monad; [|discriminate|congruence].
    destruct (stop_r env =? 0) eqn:Hr; run_monad; rewrite ?Hr; cbn [negb]; run_monad;
      [discriminate|].
    destruct (loop (self w)); run_monad; discriminate.
  - unfold result_of, Timer_func_again, uv_timer_again, deref. run_monad.
    destruct (closed (self w)); [discriminate|].
    destruct (uv_timer (self w)) as [p|] eqn:Hp; run_monad; [|discriminate].
    specialize (Hlive p eq_refl).
    destruct (heap w !! p) as [[c|]|]; run_monad; [|discriminate|congruence].
    destruct (again_r env =? 0) eqn:Hr; run_monad;
      [destruct (handle_repeat c =? 0); run_monad|];
      rewrite ?Hr; cbn [negb]; run_monad; try discriminate.
    destruct (loop (self w)); run_monad; discriminate.
  - unfold result_of, Timer_func_close, uv_close, deref. run_monad.
    destruct (uv_timer (self w)) as [p|] eqn:Hp; run_monad; [|discriminate].
    specialize (Hlive p eq_refl).
    destruct (heap w !! p) as [[c|]|]; run_monad; [discriminate|discriminate|congruence].
  - unfold result_of, Timer_repeat_get, uv_timer_get_repeat, deref. run_monad.
    destruct (closed (self w)); [discriminate|].
    destruct (uv_timer (self w)) as [p|] eqn:Hp; run_monad; [|discriminate].
    specialize (Hlive p eq_refl).
    destruct (heap w !! p) as [[c|]|]; run_monad; [discriminate|discriminate|congruence].
Qed.

Lemma slots_survive_reentrant_destructors_witness :
  slots_in_heap
    (Reentrant.call_methods (restarting cb1 (mkArgs cb3 d_zero d_zero None))
       [Call_init (Some a_loop);
        Call_start env_ok (Some (mkArgs cb1 d_zero d_zero (Some data1)));
        Call_stop env_ok;
        Call_start env_ok (Some (mkArgs cb2 d_minus_1 d_zero None))]
       Timer_tp_new).
Proof.
  exact (proj1 (slots_survive_reentrant_destructors
                  (restarting cb1 (mkArgs cb3 d_zero d_zero None))
                  [Call_init (Some a_loop);
                   Call_start env_ok (Some (mkArgs cb1 d_zero d_zero (Some data1)));
                   Call_stop env_ok;
                   Call_start env_ok (Some (mkArgs cb2 d_minus_1 d_zero None))]
                  env_ok
                  (restarting_gentle cb1 (mkArgs cb3 d_zero d_zero None)))).
Defined.


